(** * skyhook: GitHub web hook relay to Slack

    A shallow embedding of [skyhook.py]: the web hook endpoint [hook], the
    background [Worker] thread with its job queue, and the pieces of the
    Python runtime and of [netaddr] they rely on.  The development states
    and proves the properties of the intake pipeline (origin check, event
    routing, repository authorization) and of the worker (FIFO processing,
    fault isolation, message formatting). *)

From Stdlib Require Import ZArith String Ascii List Lia Bool.
From stdpp Require Import base option list strings gmap pretty.

Local Open Scope string_scope.
Local Open Scope Z_scope.
Local Open Scope list_scope.
#[local] Set Warnings "-register-all".

(** ** Python values and exceptions *)

(** What [request.get_json()] produces: the Python image of a JSON document.
    A float is carried as its [repr] text (the program never computes with
    it); a dict is carried as its items in insertion order. *)
Inductive JSON : Type :=
| JNull
| JBool (b : bool)
| JInt (n : Z)
| JFloat (repr : string)
| JStr (s : string)
| JList (items : list JSON)
| JObj (items : list (string * JSON)).

Inductive Exc : Type :=
| KeyError (key : JSON)
| TypeError (what : string)
| ValueError (what : string)
| IndexError (what : string)
| AttributeError (what : string)
| BadRequest
| SlackError (what : string).

(** The result of evaluating a Python expression: a value or a raised
    exception. *)
Inductive result (A : Type) : Type :=
| Ok (a : A)
| Raise (e : Exc).
Arguments Ok {A} a.
Arguments Raise {A} e.

#[global] Instance result_ret : MRet result := fun A a => Ok a.
#[global] Instance result_bind : MBind result := fun A B f r =>
  match r with
  | Ok a => f a
  | Raise e => Raise e
  end.

(** [dict.get(key)] on the items of a dict. *)
Fixpoint assoc {A} (key : string) (items : list (string * A)) : option A :=
  match items with
  | [] => None
  | (k, v) :: rest => if String.eqb k key then Some v else assoc key rest
  end.

(** [v[key]] for a string [key]: only a dict can be subscripted by a string. *)
Definition getitem (v : JSON) (key : string) : result JSON :=
  match v with
  | JObj items =>
      match assoc key items with
      | Some x => Ok x
      | None => Raise (KeyError (JStr key))
      end
  | JStr _ => Raise (TypeError "string indices must be integers")
  | JList _ => Raise (TypeError "list indices must be integers or slices")
  | _ => Raise (TypeError "object is not subscriptable")
  end.

(** ** netaddr: addresses and networks *)

Inductive IPVersion : Type := IPv4 | IPv6.

Definition width (v : IPVersion) : Z :=
  match v with IPv4 => 32 | IPv6 => 128 end.

Definition max_int (v : IPVersion) : Z := 2 ^ width v - 1.

Definition version_eqb (a b : IPVersion) : bool :=
  match a, b with
  | IPv4, IPv4 | IPv6, IPv6 => true
  | _, _ => false
  end.

Record IPAddress : Type := {
  addr_version : IPVersion;
  addr_value : Z
}.

Record IPNetwork : Type := {
  net_version : IPVersion;
  net_value : Z;
  prefixlen : Z
}.

(** What the constructors of [netaddr] guarantee. *)
Definition valid_network (n : IPNetwork) : Prop :=
  0 <= net_value n <= max_int (net_version n) /\
  0 <= prefixlen n <= width (net_version n).

Definition hostmask (n : IPNetwork) : Z :=
  Z.shiftl 1 (width (net_version n) - prefixlen n) - 1.

(** [IPNetwork.first] and [IPNetwork.last]. *)
Definition first (n : IPNetwork) : Z :=
  Z.land (net_value n) (Z.lxor (max_int (net_version n)) (hostmask n)).

Definition last (n : IPNetwork) : Z :=
  Z.lor (net_value n) (hostmask n).

(** [addr in network] ([IPNetwork.__contains__]): the host bits are shifted
    away and the network parts compared. *)
Definition network_contains (n : IPNetwork) (a : IPAddress) : bool :=
  if version_eqb (net_version n) (addr_version a) then
    let shiftwidth := width (net_version n) - prefixlen n in
    Z.shiftr (addr_value a) shiftwidth =? Z.shiftr (net_value n) shiftwidth
  else false.

(** The range reading of membership: same family, between the first and the
    last address of the block. *)
Definition in_range (n : IPNetwork) (a : IPAddress) : Prop :=
  net_version n = addr_version a /\ first n <= addr_value a <= last n.

(** ** Application configuration *)

(** An entry of [REPOS]: a dict with the key ["channel"] and, optionally,
    ["STAR_FORMAT"] and ["FORK_FORMAT"]. *)
Definition Repo : Type := gmap string string.

Record App : Type := {
  STAR_FORMAT : string;
  FORK_FORMAT : string;
  REPOS : gmap string Repo;
  github_networks : list IPNetwork
}.

Definition DEFAULT_STAR_FORMAT : string :=
  "<{user[url]}|{user[name]}> starred <{repo[url]}|{repo[name]}> ★ {stars}".

Definition DEFAULT_FORK_FORMAT : string :=
  "<{user[url]}|{user[name]}> forked <{repo[url]}|{repo[name]}> :goldfork: {forks}".

(** [app.config] as [app.config.update] leaves it, before any configuration
    file is read. *)
Definition default_app (networks : list IPNetwork) : App :=
  {| STAR_FORMAT := DEFAULT_STAR_FORMAT;
     FORK_FORMAT := DEFAULT_FORK_FORMAT;
     REPOS := ∅;
     github_networks := networks |}.

(** [key in app.config['REPOS']]: the keys of the registry are strings, so a
    hashable value of another type is never found, and an unhashable one
    cannot be looked up at all. *)
Definition REPOS_contains (app : App) (key : JSON) : result bool :=
  match key with
  | JStr name => Ok (bool_decide (is_Some (REPOS app !! name)))
  | JList _ | JObj _ => Raise (TypeError "unhashable type")
  | _ => Ok false
  end.

(** [app.config['REPOS'][key]]. *)
Definition REPOS_getitem (app : App) (key : JSON) : result Repo :=
  match key with
  | JStr name =>
      match REPOS app !! name with
      | Some repo => Ok repo
      | None => Raise (KeyError key)
      end
  | JList _ | JObj _ => Raise (TypeError "unhashable type")
  | _ => Raise (KeyError key)
  end.

(** [repo['channel']]. *)
Definition repo_getitem (repo : Repo) (key : string) : result string :=
  match repo !! key with
  | Some v => Ok v
  | None => Raise (KeyError (JStr key))
  end.

(** ** [str.format]

    The templates are Python format strings.  The fragment the built-in
    templates are written in is modelled concretely: literal text, the
    doubled braces, and replacement fields [{name}] and [{name[key]}] whose
    name and key are identifiers.  The rest of the format mini-language
    (conversions, format specifications, attribute access, positional
    fields) and [str()] of a list or dict belong to the Python runtime and
    are taken as they come. *)
Class PyRuntime : Type := {
  str_other : JSON -> string;
  format_other : string -> list (string * JSON) -> result string
}.

Inductive Piece : Type :=
| Lit (c : ascii)
| Field (name : string) (key : option string).

Inductive ScanMode : Type :=
| InText
| AfterClose
| InName (name : string)
| InKey (name key : string)
| AfterKey (name key : string).

Definition is_ident_start (c : ascii) : bool :=
  let n := nat_of_ascii c in
  ((65 <=? n) && (n <=? 90) || (97 <=? n) && (n <=? 122) || (n =? 95))%nat.

Definition is_ident_char (c : ascii) : bool :=
  let n := nat_of_ascii c in
  (is_ident_start c || (48 <=? n) && (n <=? 57))%nat.

Definition is_ident (s : string) : bool :=
  match s with
  | EmptyString => false
  | String c rest =>
      is_ident_start c && forallb is_ident_char (list_ascii_of_string rest)
  end.

Definition snoc (s : string) (c : ascii) : string := s +:+ String c EmptyString.

(** Splits a template of the modelled fragment into its pieces; [None] for a
    template outside the fragment. *)
Fixpoint scan (mode : ScanMode) (s : string) : option (list Piece) :=
  match s with
  | EmptyString =>
      match mode with
      | InText => Some []
      | _ => None
      end
  | String c rest =>
      match mode with
      | InText =>
          if Ascii.eqb c "{" then scan (InName "") rest
          else if Ascii.eqb c "}" then scan AfterClose rest
          else cons (Lit c) <$> scan InText rest
      | AfterClose =>
          if Ascii.eqb c "}" then cons (Lit "}") <$> scan InText rest
          else None
      | InName name =>
          if Ascii.eqb c "{" then
            match name with
            | EmptyString => cons (Lit "{") <$> scan InText rest
            | _ => None
            end
          else if Ascii.eqb c "}" then
            if is_ident name then cons (Field name None) <$> scan InText rest
            else None
          else if Ascii.eqb c "[" then
            if is_ident name then scan (InKey name "") rest else None
          else scan (InName (snoc name c)) rest
      | InKey name key =>
          if Ascii.eqb c "]" then
            if is_ident key then scan (AfterKey name key) rest else None
          else scan (InKey name (snoc key c)) rest
      | AfterKey name key =>
          if Ascii.eqb c "}" then
            cons (Field name (Some key)) <$> scan InText rest
          else None
      end
  end.

Section Format.
Context `{!PyRuntime}.

(** [str(v)], which is also [format(v, '')]. *)
Definition str (v : JSON) : string :=
  match v with
  | JNull => "None"
  | JBool true => "True"
  | JBool false => "False"
  | JInt n => pretty n
  | JFloat repr => repr
  | JStr s => s
  | JList _ | JObj _ => str_other v
  end.

Definition render_piece (kwargs : list (string * JSON)) (p : Piece)
  : result string :=
  match p with
  | Lit c => Ok (String c EmptyString)
  | Field name key =>
      match assoc name kwargs with
      | None => Raise (KeyError (JStr name))
      | Some v =>
          match key with
          | None => Ok (str v)
          | Some k => x ← getitem v k; Ok (str x)
          end
      end
  end.

(** Fields are rendered from left to right: the first one that fails
    decides the exception. *)
Fixpoint render (kwargs : list (string * JSON)) (ps : list Piece)
  : result string :=
  match ps with
  | [] => Ok ""
  | p :: rest =>
      x ← render_piece kwargs p;
      xs ← render kwargs rest;
      Ok (x +:+ xs)
  end.

(** [template.format] applied to the keyword arguments [kwargs]. *)
Definition format (template : string) (kwargs : list (string * JSON))
  : result string :=
  match scan InText template with
  | Some ps => render kwargs ps
  | None => format_other template kwargs
  end.
End Format.

(** ** Requests, responses, jobs and the shared state *)

Record Request : Type := {
  remote_addr : IPAddress;            (* request.remote_addr, parsed *)
  X_GitHub_Event : option string;     (* request.headers.get('X-GitHub-Event') *)
  get_json : result JSON              (* request.get_json() *)
}.

Record Response : Type := {
  body : JSON;
  status_code : Z
}.

(** [flask.jsonify] of keyword arguments; without an explicit status the
    response is a 200. *)
Definition jsonify (kwargs : list (string * JSON)) : JSON := JObj kwargs.

Definition respond (kwargs : list (string * JSON)) (status : Z) : Response :=
  {| body := jsonify kwargs; status_code := status |}.

(** A job is the argument tuple given to [Worker.send]: the event type and
    the payload. *)
Definition Job : Type := string * JSON.

(** What the program does to the outside, in the order it does it. *)
Inductive Event : Type :=
| EvPut (job : Job)                 (* queue.put(job) *)
| EvGet (job : Job)                 (* queue.get() returned job *)
| EvPost (channel text : string)    (* app.slack.chat.post_message called *)
| EvInfo (msg : string)             (* app.logger.info *)
| EvError (e : Exc).                (* app.logger.error, with the traceback of e *)

(** The Slack client: each call may succeed or raise, and may change the
    state of the outside world. *)
Class Notifier : Type := {
  slack_state : Type;
  post_message : string -> string -> slack_state -> result unit * slack_state
}.

Section Program.
Context `{!PyRuntime} `{!Notifier}.

Record World : Type := {
  queue : list Job;        (* app.worker.queue *)
  slack : slack_state;     (* whatever app.slack talks to *)
  trace : list Event
}.

Definition initial (s : slack_state) : World :=
  {| queue := []; slack := s; trace := [] |}.

(** Code that reads and writes the shared state and may raise. *)
Definition M (A : Type) : Type := World -> result A * World.

Definition ret {A} (a : A) : M A := fun w => (Ok a, w).

Definition bind {A B} (m : M A) (f : A -> M B) : M B := fun w =>
  match m w with
  | (Ok a, w') => f a w'
  | (Raise e, w') => (Raise e, w')
  end.

Definition lift {A} (r : result A) : M A := fun w => (r, w).

(** [try: body / except: handler]: a bare [except] catches everything. *)
Definition try_except {A} (body : M A) (handler : Exc -> M A) : M A := fun w =>
  match body w with
  | (Ok a, w') => (Ok a, w')
  | (Raise e, w') => handler e w'
  end.

Definition emit (ev : Event) : M unit := fun w =>
  (Ok tt, {| queue := queue w; slack := slack w; trace := trace w ++ [ev] |}).

Definition logger_info (msg : string) : M unit := emit (EvInfo msg).
Definition logger_error (e : Exc) : M unit := emit (EvError e).

(** [queue.put(job)]: the queue is unbounded, the call returns at once. *)
Definition queue_put (job : Job) : M unit := fun w =>
  (Ok tt, {| queue := queue w ++ [job]; slack := slack w;
             trace := trace w ++ [EvPut job] |}).

(** [queue.get()]: the oldest job, or [None] while the queue is empty and
    the caller stays blocked. *)
Definition queue_get (w : World) : option (Job * World) :=
  match queue w with
  | [] => None
  | job :: rest =>
      Some (job, {| queue := rest; slack := slack w;
                    trace := trace w ++ [EvGet job] |})
  end.

Definition chat_post_message (channel text : string) : M unit := fun w =>
  let '(r, s) := post_message channel text (slack w) in
  (r, {| queue := queue w; slack := s;
         trace := trace w ++ [EvPost channel text] |}).
End Program.

Notation "x <- m ;; k" := (bind m (fun x => k))
  (at level 100, m at next level, right associativity).
Notation "m ;;; k" := (bind m (fun _ => k))
  (at level 100, right associativity).

(** ** The program *)

Section Skyhook.
Context `{!PyRuntime} `{!Notifier}.

Definition slack_notify_star (channel star_format : string)
    (kwargs : list (string * JSON)) : M unit :=
  text <- lift (format star_format kwargs) ;;
  chat_post_message channel text.

Definition slack_notify_fork (channel fork_format : string)
    (kwargs : list (string * JSON)) : M unit :=
  text <- lift (format fork_format kwargs) ;;
  chat_post_message channel text.

(** [payload[k1][k2]]. *)
Definition getitem2 (payload : JSON) (k1 k2 : string) : result JSON :=
  x ← getitem payload k1; getitem x k2.

(** [app.config['REPOS'][payload['repository']['full_name']]]. *)
Definition registry_lookup (app : App) (payload : JSON) : result Repo :=
  full_name ← getitem2 payload "repository" "full_name";
  REPOS_getitem app full_name.

(** [Worker.handle]: notify on watch or fork.  The arguments of the
    notification are evaluated from left to right. *)
Definition handle (app : App) (event_type : string) (payload : JSON) : M unit :=
  if String.eqb event_type "watch" then
    repo <- lift (registry_lookup app payload) ;;
    let star_format := default (STAR_FORMAT app) (repo !! "STAR_FORMAT") in
    channel <- lift (repo_getitem repo "channel") ;;
    login <- lift (getitem2 payload "sender" "login") ;;
    user_url <- lift (getitem2 payload "sender" "html_url") ;;
    full_name <- lift (getitem2 payload "repository" "full_name") ;;
    repo_url <- lift (getitem2 payload "repository" "html_url") ;;
    stars <- lift (getitem2 payload "repository" "stargazers_count") ;;
    slack_notify_star channel star_format
      [("user", JObj [("name", login); ("url", user_url)]);
       ("repo", JObj [("name", full_name); ("url", repo_url)]);
       ("stars", stars)]
  else if String.eqb event_type "fork" then
    repo <- lift (registry_lookup app payload) ;;
    let fork_format := default (FORK_FORMAT app) (repo !! "FORK_FORMAT") in
    channel <- lift (repo_getitem repo "channel") ;;
    login <- lift (getitem2 payload "sender" "login") ;;
    user_url <- lift (getitem2 payload "sender" "html_url") ;;
    full_name <- lift (getitem2 payload "repository" "full_name") ;;
    repo_url <- lift (getitem2 payload "repository" "html_url") ;;
    forks <- lift (getitem2 payload "repository" "forks") ;;
    slack_notify_fork channel fork_format
      [("user", JObj [("name", login); ("url", user_url)]);
       ("repo", JObj [("name", full_name); ("url", repo_url)]);
       ("forks", forks)]
  else ret tt.

(** [Worker.send]: add a job to the queue. *)
Definition send (event_type : string) (payload : JSON) : M unit :=
  queue_put (event_type, payload).

(** One turn of the loop of [Worker.run]: [handle] under the bare
    [except] that logs the exception.  [queue.get()] raises nothing; the
    turn is [None] while it blocks on the empty queue. *)
Definition run_iter (app : App) (w : World) : option (result unit * World) :=
  match queue_get w with
  | None => None
  | Some ((event_type, payload), w1) =>
      Some (try_except (handle app event_type payload)
                       (fun e => logger_error e) w1)
  end.

(** Where the worker thread stands after some turns of its loop. *)
Inductive Thread : Type :=
| Waiting              (* blocked in queue.get() on an empty queue *)
| Looping              (* about to start the next turn *)
| Dead (e : Exc).      (* an exception left the loop *)

(** [Worker.run], for at most [fuel] turns of [while True]. *)
Fixpoint run (app : App) (fuel : nat) (w : World) : Thread * World :=
  match fuel with
  | O => (Looping, w)
  | S fuel' =>
      match run_iter app w with
      | None => (Waiting, w)
      | Some (Ok _, w') => run app fuel' w'
      | Some (Raise e, w') => (Dead e, w')
      end
  end.

(** The loop over [app.github_networks] with its [else] branch: [true]
    when the loop is left by [break]. *)
Fixpoint from_github (addr : IPAddress) (networks : list IPNetwork) : bool :=
  match networks with
  | [] => false
  | network :: rest =>
      if network_contains network addr then true else from_github addr rest
  end.

(** The web hook endpoint.  [not event_type] holds of a missing header and
    of an empty one.  An exception that leaves [hook] is turned into an
    error response by Flask. *)
Definition hook (app : App) (request : Request) : M Response :=
  if negb (from_github (remote_addr request) (github_networks app)) then
    ret (respond [("status", JStr "you != GitHub")] 403)
  else
    match X_GitHub_Event request with
    | None | Some EmptyString =>
        logger_info "Received a non-hook request" ;;;
        ret (respond [("status", JStr "not a hook")] 403)
    | Some event_type =>
        if String.eqb event_type "ping" then
          ret (respond [("status", JStr "pong")] 200)
        else if String.eqb event_type "watch" then
          payload <- lift (get_json request) ;;
          repo <- lift (getitem2 payload "repository" "full_name") ;;
          registered <- lift (REPOS_contains app repo) ;;
          if negb registered then
            ret (respond [("status", JStr "repo not allowed"); ("repo", repo)] 403)
          else
            send "watch" payload ;;;
            ret (respond [("status", JStr "handled")] 202)
        else if String.eqb event_type "fork" then
          payload <- lift (get_json request) ;;
          repo <- lift (getitem2 payload "repository" "full_name") ;;
          registered <- lift (REPOS_contains app repo) ;;
          if negb registered then
            ret (respond [("status", JStr "repo not allowed"); ("repo", repo)] 403)
          else
            send "fork" payload ;;;
            ret (respond [("status", JStr "handled")] 202)
        else
          ret (respond [("status", JStr "unhandled event");
                        ("event", JStr event_type)] 501)
    end.

(** The call to Slack that handling a job leads to, if it gets that far:
    [handle] without the call itself (see [handle_notification]). *)
Definition notification (app : App) (event_type : string) (payload : JSON)
  : result (option (string * string)) :=
  if String.eqb event_type "watch" then
    repo ← registry_lookup app payload;
    let star_format := default (STAR_FORMAT app) (repo !! "STAR_FORMAT") in
    channel ← repo_getitem repo "channel";
    login ← getitem2 payload "sender" "login";
    user_url ← getitem2 payload "sender" "html_url";
    full_name ← getitem2 payload "repository" "full_name";
    repo_url ← getitem2 payload "repository" "html_url";
    stars ← getitem2 payload "repository" "stargazers_count";
    text ← format star_format
      [("user", JObj [("name", login); ("url", user_url)]);
       ("repo", JObj [("name", full_name); ("url", repo_url)]);
       ("stars", stars)];
    Ok (Some (channel, text))
  else if String.eqb event_type "fork" then
    repo ← registry_lookup app payload;
    let fork_format := default (FORK_FORMAT app) (repo !! "FORK_FORMAT") in
    channel ← repo_getitem repo "channel";
    login ← getitem2 payload "sender" "login";
    user_url ← getitem2 payload "sender" "html_url";
    full_name ← getitem2 payload "repository" "full_name";
    repo_url ← getitem2 payload "repository" "html_url";
    forks ← getitem2 payload "repository" "forks";
    text ← format fork_format
      [("user", JObj [("name", login); ("url", user_url)]);
       ("repo", JObj [("name", full_name); ("url", repo_url)]);
       ("forks", forks)];
    Ok (Some (channel, text))
  else Ok None.

(** The calls to Slack made for a job: none or one. *)
Definition job_posts (app : App) (job : Job) : list (string * string) :=
  match notification app job.1 job.2 with
  | Ok (Some call) => [call]
  | _ => []
  end.

(** ** The running system

    Request handlers and the worker thread share only the queue, whose
    [put] and [get] are atomic, and the read-only configuration; a run of
    the system is an interleaving of whole calls of [hook] and whole turns
    of the worker loop. *)
Inductive reachable (app : App) : World -> Prop :=
| reach_initial s : reachable app (initial s)
| reach_request w request :
    reachable app w -> reachable app (snd (hook app request w))
| reach_worker w w' :
    reachable app w -> run_iter app w = Some (Ok tt, w') -> reachable app w'.

(** Projections of a trace. *)
Definition puts (tr : list Event) : list Job :=
  omap (fun ev => match ev with EvPut j => Some j | _ => None end) tr.

Definition gets (tr : list Event) : list Job :=
  omap (fun ev => match ev with EvGet j => Some j | _ => None end) tr.

Definition posts (tr : list Event) : list (string * string) :=
  omap (fun ev => match ev with EvPost c t => Some (c, t) | _ => None end) tr.

Definition post_event (call : string * string) : Event :=
  EvPost call.1 call.2.

(** A job for a repository of the registry. *)
Definition registered (app : App) (job : Job) : Prop :=
  exists name repo,
    getitem2 job.2 "repository" "full_name" = Ok (JStr name) /\
    REPOS app !! name = Some repo.
End Skyhook.

(** ** The default messages, in the words of the specification

    The specification gives the default fork message as
    ["{actor} forked {repository} ⑂ {count}"], actor and repository being
    hyperlinks, which Slack writes [<url|text>]. *)
Definition spec_fork_message (actor_url actor repo_url repo count : string)
  : string :=
  "<" +:+ actor_url +:+ "|" +:+ actor +:+ "> forked <"
      +:+ repo_url +:+ "|" +:+ repo +:+ "> ⑂ " +:+ count.

(** The same message as the built-in [FORK_FORMAT] writes it. *)
Definition fork_message (actor_url actor repo_url repo count : string)
  : string :=
  "<" +:+ actor_url +:+ "|" +:+ actor +:+ "> forked <"
      +:+ repo_url +:+ "|" +:+ repo +:+ "> :goldfork: " +:+ count.

(** ** A concrete runtime and notifier, for examples *)

(** A runtime whose unmodelled parts are inert. *)
Definition plain_runtime : PyRuntime :=
  {| str_other := fun _ => "<object>";
     format_other := fun _ _ => Raise (ValueError "unsupported format string") |}.

(** A notifier that counts its calls and cannot reach the channel
    ["#down"]. *)
Definition flaky_slack : Notifier :=
  {| slack_state := nat;
     post_message := fun channel _ n =>
       (if String.eqb channel "#down" then Raise (SlackError "channel_not_found")
        else Ok tt, S n) |}.

Module Examples.
#[local] Existing Instance plain_runtime.
#[local] Existing Instance flaky_slack.

Definition github : IPNetwork :=
  {| net_version := IPv4; net_value := 3221226219 (* 192.0.2.235 *); prefixlen := 24 |}.

Definition inside : IPAddress := {| addr_version := IPv4; addr_value := 3221226001 |}.
Definition outside : IPAddress := {| addr_version := IPv4; addr_value := 3221226240 + 16 |}.

Definition app : App :=
  {| STAR_FORMAT := DEFAULT_STAR_FORMAT;
     FORK_FORMAT := DEFAULT_FORK_FORMAT;
     REPOS := {[ "acme/widgets" := {[ "channel" := "#releases" ]};
                 "acme/gadgets" := {[ "channel" := "#down" ]} ]};
     github_networks := [github] |}.

Definition payload (full_name : string) : JSON :=
  JObj [("repository",
         JObj [("full_name", JStr full_name);
               ("html_url", JStr ("https://github.com/" +:+ full_name));
               ("stargazers_count", JInt 7);
               ("forks", JInt 42)]);
        ("sender",
         JObj [("login", JStr "alice");
               ("html_url", JStr "https://github.com/alice")])].

Definition request (addr : IPAddress) (event : option string) (p : JSON) : Request :=
  {| remote_addr := addr; X_GitHub_Event := event; get_json := Ok p |}.

(** The state at start-up: empty queue, no call made yet. *)
Definition start : @World flaky_slack := @initial flaky_slack 0%nat.

Definition world (q : list Job) (calls : nat) (tr : list Event)
  : @World flaky_slack :=
  {| queue := q; slack := calls; trace := tr |}.

(** A short run: two accepted requests, then one turn of the worker. *)
Definition two_queued : @World flaky_slack :=
  (hook app
     (request inside (Some "watch") (payload "acme/widgets"))
     (hook app
        (request inside (Some "fork") (payload "acme/gadgets")) start).2).2.

Definition one_taken : @World flaky_slack :=
  match run_iter app two_queued with
  | Some (_, w) => w
  | None => two_queued
  end.
End Examples.


(** * The rest of the program *)

(** ** [random_string] *)

(** The random generator: [randbelow n] draws an index below [n]. *)
Class Random : Type := {
  rng : Type;
  randbelow : nat -> rng -> nat * rng;
  randbelow_lt : forall n s, (0 < n)%nat -> ((randbelow n s).1 < n)%nat
}.

(** [string.ascii_letters + string.digits], character by character. *)
Definition ascii_letters_digits : list string :=
  map (fun c => String c EmptyString)
      (list_ascii_of_string
         "abcdefghijklmnopqrstuvwxyzABCDEFGHIJKLMNOPQRSTUVWXYZ0123456789").

(** [''.join(parts)]. *)
Definition join (parts : list string) : string :=
  foldr String.append "" parts.

Section RandomString.
Context `{!Random}.

(** [random.choice(seq)]: an empty sequence raises before anything is
    drawn. *)
Definition choice (seq : list string) (s : rng) : result string * rng :=
  match seq with
  | [] => (Raise (IndexError "Cannot choose from an empty sequence"), s)
  | _ =>
      let '(i, s') := randbelow (length seq) s in
      (Ok (nth i seq ""), s')
  end.

(** The generator [random.choice(chars) for i in range(n)], run to its end
    or to its first exception. *)
Fixpoint choices (chars : list string) (n : nat) (s : rng)
  : result (list string) * rng :=
  match n with
  | O => (Ok [], s)
  | S n' =>
      match choice chars s with
      | (Ok c, s') =>
          match choices chars n' s' with
          | (Ok cs, s'') => (Ok (c :: cs), s'')
          | (Raise e, s'') => (Raise e, s'')
          end
      | (Raise e, s') => (Raise e, s')
      end
  end.

(** [random_string(length, chars)]; [chars] is any sequence of strings, a
    [str] being the sequence of its characters.  [range] of a negative
    length is empty. *)
Definition random_string (length : Z) (chars : list string) (s : rng)
  : result string * rng :=
  match choices chars (Z.to_nat length) s with
  | (Ok cs, s') => (Ok (join cs), s')
  | (Raise e, s') => (Raise e, s')
  end.
End RandomString.

(** ** The command line: [run] *)

Module Cli.
(** The two settings of [app.config] that [run] writes. *)
Record Settings : Type := {
  DEBUG : bool;
  SECRET_KEY : option string
}.

(** Truth value of an optional string: [None] and [''] are false. *)
Definition given (s : option string) : bool :=
  match s with
  | None | Some EmptyString => false
  | Some _ => true
  end.

(** What [app.run] is started with. *)
Record Served : Type := {
  host : string;
  port : Z;
  config : Settings
}.

Section Run.
Context `{!Random}.

(** [run(host, port, debug, secret)], up to the call of [app.run]. *)
Definition run (host : string) (port : Z) (debug : bool)
    (secret : option string) (cfg : Settings) (s : rng)
  : result Served * rng :=
  let cfg1 :=
    if debug then {| DEBUG := debug; SECRET_KEY := SECRET_KEY cfg |} else cfg in
  if given secret then
    (Ok {| host := host; port := port;
           config := {| DEBUG := DEBUG cfg1; SECRET_KEY := secret |} |}, s)
  else if negb (given (SECRET_KEY cfg1)) then
    match random_string 20 ascii_letters_digits s with
    | (Ok key, s') =>
        (Ok {| host := host; port := port;
               config := {| DEBUG := DEBUG cfg1; SECRET_KEY := Some key |} |},
         s')
    | (Raise e, s') => (Raise e, s')
    end
  else (Ok {| host := host; port := port; config := cfg1 |}, s).
End Run.
End Cli.

(** ** Start-up: [app_setup] *)

(** A [Worker] object. *)
Record WorkerThread : Type := {
  daemon : bool;
  worker_queue : list Job;
  started : bool
}.

(** [Worker()]: a daemon thread with an empty queue, not yet started. *)
Definition Worker_init : WorkerThread :=
  {| daemon := true; worker_queue := []; started := false |}.

(** [worker.start()]. *)
Definition start_thread (t : WorkerThread) : WorkerThread :=
  {| daemon := daemon t; worker_queue := worker_queue t; started := true |}.

(** The attributes [app_setup] hangs on [app]; [None] while [hasattr] is
    false.  The Slack client is the key it was made with. *)
Record Attrs : Type := {
  attr_worker : option WorkerThread;
  attr_slack : option (option string);
  attr_github_networks : option (list IPNetwork)
}.

Definition no_attrs : Attrs :=
  {| attr_worker := None; attr_slack := None; attr_github_networks := None |}.

Inductive SetupEvent : Type :=
| SeStart                  (* app.worker.start() *)
| SeFetch                  (* requests.get('https://api.github.com/meta') *)
| SeInfo (msg : string).   (* app.logger.info *)

(** What start-up takes from [netaddr] and from the Python runtime: the
    constructor [IPNetwork(cidr)] and the characters of a [str]. *)
Class SetupRuntime : Type := {
  IPNetwork_new : JSON -> result IPNetwork;
  str_chars : string -> list string
}.

Section Setup.
Context `{!SetupRuntime}.

(** The values a [for] loop over [v] goes through: the items of a list,
    the keys of a dict, the characters of a string. *)
Definition iterate (v : JSON) : result (list JSON) :=
  match v with
  | JList items => Ok items
  | JObj items => Ok (map (fun kv => JStr kv.1) items)
  | JStr s => Ok (map JStr (str_chars s))
  | _ => Raise (TypeError "object is not iterable")
  end.

(** The body of the loop over the CIDR blocks: each network is appended to
    the list as soon as it is built. *)
Fixpoint append_networks (cidrs : list JSON) (networks : list IPNetwork)
  : result unit * list IPNetwork :=
  match cidrs with
  | [] => (Ok tt, networks)
  | cidr :: rest =>
      match IPNetwork_new cidr with
      | Ok network => append_networks rest (networks ++ [network])
      | Raise e => (Raise e, networks)
      end
  end.

(** [app_setup].  [meta] is what [requests.get(...).json()] returns or
    raises if it is called now; [app.github_networks] is set to the empty
    list before [meta['hooks']] is read. *)
Definition app_setup (SLACK_KEY : option string) (meta : result JSON)
    (a : Attrs) : result unit * Attrs * list SetupEvent :=
  let '(worker, ev1) :=
    match attr_worker a with
    | None => (start_thread Worker_init, [SeStart])
    | Some t => (t, [])
    end in
  let slack :=
    match attr_slack a with
    | None => SLACK_KEY
    | Some client => client
    end in
  let attrs networks :=
    {| attr_worker := Some worker; attr_slack := Some slack;
       attr_github_networks := networks |} in
  match attr_github_networks a with
  | Some networks => (Ok tt, attrs (Some networks), ev1)
  | None =>
      match meta with
      | Raise e => (Raise e, attrs None, ev1 ++ [SeFetch])
      | Ok m =>
          match (hooks ← getitem m "hooks"; iterate hooks) with
          | Raise e => (Raise e, attrs (Some []), ev1 ++ [SeFetch])
          | Ok cidrs =>
              match append_networks cidrs [] with
              | (Raise e, networks) =>
                  (Raise e, attrs (Some networks), ev1 ++ [SeFetch])
              | (Ok _, networks) =>
                  (Ok tt, attrs (Some networks),
                   ev1 ++ [SeFetch;
                           SeInfo ("Loaded GitHub networks: "
                                   +:+ pretty (length networks))])
              end
          end
      end
  end.
End Setup.

(** ** [load_config] *)

(** [os.path.join(a, b)] on POSIX. *)
Definition path_join (a b : string) : string :=
  if String.prefix "/" b then b
  else if String.eqb a "" then a +:+ b
  else if String.eqb (String.substring (String.length a - 1) 1 a) "/" then a +:+ b
  else a +:+ "/" +:+ b.

(** The two keys of [app.config] that [load_config] reads; [None] for a
    key that is not set. *)
Record LoaderConfig : Type := {
  CONFIG_DEFAULT : option (gmap string JSON);
  CONFIG_FILENAME : option string
}.

(** The file system and the YAML parser: whether a path exists, and what
    opening and loading the file gives.  A mapping is loaded as a [JObj];
    [update_sequence] is [dict.update] with a non-empty string or list, which
    takes its elements as key-value pairs. *)
Class FileSystem : Type := {
  path_exists : string -> bool;
  yaml_load_file : string -> result JSON;
  update_sequence : gmap string JSON -> JSON -> result (gmap string JSON)
}.

Section LoadConfig.
Context `{!FileSystem}.

(** [config.update(overlay)]. *)
Definition dict_update (config : gmap string JSON) (overlay : JSON)
  : result (gmap string JSON) :=
  match overlay with
  | JObj items => Ok (foldr (fun kv m => <[kv.1 := kv.2]> m) config items)
  | JStr EmptyString | JList [] => Ok config
  | JStr _ | JList _ => update_sequence config overlay
  | _ => Raise (TypeError "object is not iterable")
  end.

Definition load_config (cfg : LoaderConfig) (repo_dir : string)
  : result (gmap string JSON) :=
  match CONFIG_DEFAULT cfg with
  | None => Raise (KeyError (JStr "CONFIG_DEFAULT"))
  | Some config =>
      match CONFIG_FILENAME cfg with
      | None => Raise (KeyError (JStr "CONFIG_FILENAME"))
      | Some filename =>
          let config_fn := path_join repo_dir filename in
          if path_exists config_fn then
            overlay ← yaml_load_file config_fn;
            dict_update config overlay
          else Ok config
      end
  end.
End LoadConfig.

(** ** More concrete pieces, for examples *)

(** A generator that counts: the n-th draw below [k] is [n mod k]. *)
Definition counting_random : Random :=
  {| rng := nat;
     randbelow := fun n s => (s mod n, S s)%nat;
     randbelow_lt := fun n s H =>
       Nat.mod_upper_bound s n (proj2 (Nat.neq_0_lt_0 n) H) |}.

(** A constructor of networks that knows two blocks. *)
Definition two_blocks : SetupRuntime :=
  {| IPNetwork_new := fun cidr =>
       match cidr with
       | JStr "192.0.2.0/24" =>
           Ok {| net_version := IPv4; net_value := 3221225984; prefixlen := 24 |}
       | JStr "198.51.100.0/24" =>
           Ok {| net_version := IPv4; net_value := 3325256704; prefixlen := 24 |}
       | _ => Raise (ValueError "invalid IPNetwork")
       end;
     str_chars := fun s =>
       map (fun c => String c EmptyString) (list_ascii_of_string s) |}.

(** A file system with one configuration file. *)
Definition one_file : FileSystem :=
  {| path_exists := fun path => String.eqb path "repos/widgets/skyhook.yml";
     yaml_load_file := fun _ =>
       Ok (JObj [("channel", JStr "#widgets"); ("notify", JBool true)]);
     update_sequence := fun _ _ =>
       Raise (ValueError "dictionary update sequence element has wrong length") |}.

Module MoreExamples.
Import Examples.

(** A registry whose entries have a template of their own, or no channel. *)
Definition custom_app : App :=
  {| STAR_FORMAT := DEFAULT_STAR_FORMAT;
     FORK_FORMAT := DEFAULT_FORK_FORMAT;
     REPOS := {[ "acme/widgets" := {[ "channel" := "#releases";
                                      "STAR_FORMAT" := "{user[name]} likes it";
                                      "FORK_FORMAT" := "forked again" ]};
                 "acme/silent" := ∅ ]};
     github_networks := [github] |}.

Definition meta (hooks : list string) : JSON :=
  JObj [("verifiable_password_authentication", JBool false);
        ("hooks", JList (map JStr hooks))].

Definition seed : @rng counting_random := 1%nat.

Definition loader : LoaderConfig :=
  {| CONFIG_DEFAULT := Some {[ "channel" := JStr "#general";
                               "branch" := JStr "master" ]};
     CONFIG_FILENAME := Some "skyhook.yml" |}.
End MoreExamples.

(** ** More vocabulary for the statements *)

(** The star message as the built-in [STAR_FORMAT] writes it. *)
Definition star_message (actor_url actor repo_url repo count : string)
  : string :=
  "<" +:+ actor_url +:+ "|" +:+ actor +:+ "> starred <"
      +:+ repo_url +:+ "|" +:+ repo +:+ "> ★ " +:+ count.

(** The exceptions logged by the worker, in order. *)
Definition errors (tr : list Event) : list Exc :=
  omap (fun ev => match ev with EvError e => Some e | _ => None end) tr.

Definition is_brace (c : ascii) : bool :=
  Ascii.eqb c "{" || Ascii.eqb c "}".

(** * Properties *)

Section Properties.
Context `{!PyRuntime} `{!Notifier}.
Implicit Types (app : App) (w : World) (request : Request) (job : Job).

(** ** The monad *)

Lemma bind_lift_ok {A B} (r : result A) (a : A) (f : A -> M B) w :
  r = Ok a -> bind (lift r) f w = f a w.
Proof. intros ->. reflexivity. Qed.

Lemma bind_lift {A B} (r : result A) (f : A -> M B) w :
  bind (lift r) f w =
    match r with Ok a => f a w | Raise e => (Raise e, w) end.
Proof. destruct r; reflexivity. Qed.

(** ** [Worker.handle] *)

(** [handle] evaluates the arguments of the notification, which touches
    nothing, and then makes at most one call. *)
Lemma handle_notification app event_type payload w :
  handle app event_type payload w =
    match notification app event_type payload with
    | Raise e => (Raise e, w)
    | Ok None => (Ok tt, w)
    | Ok (Some (channel, text)) => chat_post_message channel text w
    end.
Proof.
  unfold handle, notification, slack_notify_star, slack_notify_fork.
  repeat (case_match; try reflexivity);
    rewrite ?bind_lift; simpl in *;
    repeat (match goal with
            | |- context [bind (lift ?r) _ _] => rewrite (bind_lift r)
            | H : context [mbind _ ?r] |- _ => destruct r; simpl in H
            | |- context [match ?r with Ok _ => _ | Raise _ => _ end] =>
                destruct r; simpl
            end; try congruence).
Qed.

(** ** netaddr: membership is the range between [first] and [last] *)

Lemma hostmask_ones n :
  hostmask n = Z.ones (width (net_version n) - prefixlen n).
Proof. unfold hostmask, Z.ones. lia. Qed.

Lemma max_int_ones v : max_int v = Z.ones (width v).
Proof. unfold max_int. rewrite Z.ones_equiv. lia. Qed.

Lemma width_pos v : 0 < width v.
Proof. destruct v; simpl; lia. Qed.

Lemma testbit_above a k i :
  0 <= a <= Z.ones k -> 0 <= k <= i -> Z.testbit a i = false.
Proof.
  intros [Ha Hk] Hi. rewrite Z.ones_equiv in Hk.
  destruct (Z.eq_dec a 0) as [->|Hnz]; [apply Z.bits_0|].
  apply Z.bits_above_log2; [lia|].
  assert (Z.log2 a < k); [|lia].
  apply Z.log2_lt_pow2; lia.
Qed.

(** Two values agree above the low [sw] bits exactly when the second lies
    in the block of the first. *)
Lemma shiftr_same_block a v sw :
  0 <= sw ->
  Z.shiftr a sw = Z.shiftr v sw <->
  Z.shiftl (Z.shiftr v sw) sw <= a <= Z.shiftl (Z.shiftr v sw) sw + Z.ones sw.
Proof.
  intros Hsw.
  rewrite !Z.shiftr_div_pow2, Z.shiftl_mul_pow2, Z.ones_equiv by lia.
  assert (Hp : 0 < 2 ^ sw) by (apply Z.pow_pos_nonneg; lia).
  set (p := 2 ^ sw) in *. set (q := v / p).
  split.
  - intros Heq.
    pose proof (Z.mul_div_le a p Hp) as H1.
    pose proof (Z.mul_succ_div_gt a p Hp) as H2.
    rewrite Heq in H1, H2. fold q in H1, H2. nia.
  - intros [Hlo Hhi]. symmetry.
    apply (Z.div_unique a p q (a - q * p)); [left; lia | lia].
Qed.

Lemma first_block n :
  valid_network n ->
  first n =
    Z.shiftl (Z.shiftr (net_value n) (width (net_version n) - prefixlen n))
             (width (net_version n) - prefixlen n).
Proof.
  intros [[Hv0 Hv1] [Hp0 Hp1]]. unfold first.
  rewrite hostmask_ones, max_int_ones in *.
  pose proof (width_pos (net_version n)) as Hw.
  set (wd := width (net_version n)) in *.
  set (sw := wd - prefixlen n).
  assert (Hsw : 0 <= sw <= wd) by (unfold sw; lia).
  apply Z.bits_inj'. intros i Hi.
  rewrite Z.land_spec, Z.lxor_spec, Z.shiftl_spec by lia.
  destruct (Z.lt_ge_cases i sw) as [Hlt|Hge].
  - rewrite (Z.ones_spec_low wd), (Z.ones_spec_low sw) by lia.
    rewrite (Z.testbit_neg_r _ (i - sw)) by lia.
    simpl. apply andb_false_r.
  - rewrite (Z.ones_spec_high sw) by lia.
    rewrite Z.shiftr_spec by lia.
    replace (i - sw + sw) with i by lia.
    destruct (Z.lt_ge_cases i wd) as [Hlt'|Hge'].
    + rewrite (Z.ones_spec_low wd) by lia. simpl. apply andb_true_r.
    + rewrite (Z.ones_spec_high wd) by lia. simpl.
      rewrite andb_false_r. symmetry.
      apply (testbit_above _ wd); lia.
Qed.

Lemma last_block n :
  valid_network n ->
  last n =
    Z.shiftl (Z.shiftr (net_value n) (width (net_version n) - prefixlen n))
             (width (net_version n) - prefixlen n)
    + Z.ones (width (net_version n) - prefixlen n).
Proof.
  intros [[Hv0 Hv1] [Hp0 Hp1]]. unfold last.
  rewrite hostmask_ones.
  set (sw := width (net_version n) - prefixlen n).
  assert (Hsw : 0 <= sw) by (unfold sw; lia).
  set (blk := Z.shiftl (Z.shiftr (net_value n) sw) sw).
  assert (Hdisj : Z.land blk (Z.ones sw) = 0).
  { apply Z.bits_inj'. intros i Hi.
    rewrite Z.land_spec, Z.bits_0. unfold blk.
    rewrite Z.shiftl_spec by lia.
    destruct (Z.lt_ge_cases i sw).
    - rewrite (Z.testbit_neg_r _ (i - sw)) by lia. reflexivity.
    - rewrite (Z.ones_spec_high sw) by lia. apply andb_false_r. }
  rewrite (Z.add_nocarry_lxor _ _ Hdisj), (Z.lxor_lor _ _ Hdisj).
  apply Z.bits_inj'. intros i Hi.
  rewrite !Z.lor_spec. unfold blk. rewrite Z.shiftl_spec by lia.
  destruct (Z.lt_ge_cases i sw).
  - rewrite (Z.ones_spec_low sw) by lia. rewrite !orb_true_r. reflexivity.
  - rewrite Z.shiftr_spec by lia.
    replace (i - sw + sw) with i by lia. reflexivity.
Qed.

(** The test of [netaddr] and the range reading agree. *)
Lemma network_contains_in_range n a :
  valid_network n -> network_contains n a = true <-> in_range n a.
Proof.
  intros Hn. unfold network_contains, in_range.
  rewrite (first_block n Hn), (last_block n Hn).
  destruct Hn as [_ [Hp0 Hp1]].
  set (sw := width (net_version n) - prefixlen n).
  assert (Hsw : 0 <= sw) by (unfold sw; lia).
  rewrite <- (shiftr_same_block (addr_value a) (net_value n) sw Hsw).
  destruct (net_version n), (addr_version a); simpl;
    rewrite ?Z.eqb_eq; intuition congruence.
Qed.

Lemma first_le_last n : valid_network n -> first n <= last n.
Proof.
  intros Hn. rewrite (first_block n Hn), (last_block n Hn).
  destruct Hn as [_ [Hp0 Hp1]].
  rewrite Z.ones_equiv.
  assert (0 < 2 ^ (width (net_version n) - prefixlen n))
    by (apply Z.pow_pos_nonneg; lia).
  lia.
Qed.

(** The loop of the origin check finds a network exactly when there is
    one. *)
Lemma from_github_exists addr networks :
  from_github addr networks = true <->
  exists n, n ∈ networks /\ network_contains n addr = true.
Proof.
  induction networks as [|n rest IH]; simpl.
  - split; [discriminate|]. intros (n & Hin & _). inversion Hin.
  - destruct (network_contains n addr) eqn:Hn.
    + split; [|reflexivity]. intros _. exists n. split; [left|assumption].
    + rewrite IH. split.
      * intros (m & Hin & Hm). exists m. split; [right|]; assumption.
      * intros (m & Hin & Hm). inversion Hin; subst; [congruence|].
        exists m. split; assumption.
Qed.


(** ** The endpoint *)

(** C9.  The origin check lets an address through exactly when it lies in
    the range of at least one network of the allowlist, the first and
    the last address of every listed network included; a request from
    any other address is answered 403 [you != GitHub], whatever its event
    type and payload, and leaves the queue as it was. *)
Theorem origin_check_range app request w :
  Forall valid_network (github_networks app) ->
  (from_github (remote_addr request) (github_networks app) = true <->
     exists n, n ∈ github_networks app /\ in_range n (remote_addr request)) /\
  (forall n, n ∈ github_networks app ->
     from_github {| addr_version := net_version n; addr_value := first n |}
                 (github_networks app) = true /\
     from_github {| addr_version := net_version n; addr_value := last n |}
                 (github_networks app) = true) /\
  (from_github (remote_addr request) (github_networks app) = false ->
     hook app request w =
       (Ok (respond [("status", JStr "you != GitHub")] 403), w)).
Proof.
  intros Hvalid. rewrite Forall_forall in Hvalid.
  split; [|split].
  - rewrite from_github_exists. split; intros (n & Hin & Hn); exists n;
      (split; [assumption|]);
      apply (network_contains_in_range n _ (Hvalid n Hin)); assumption.
  - intros n Hin. pose proof (first_le_last n (Hvalid n Hin)) as Hle.
    split; apply from_github_exists; exists n; (split; [assumption|]);
      apply (network_contains_in_range n _ (Hvalid n Hin));
      unfold in_range; simpl; (split; [reflexivity | lia]).
  - intros Hno. unfold hook. rewrite Hno. reflexivity.
Qed.

(** C7, as the code has it.  A request from an allowlisted address whose
    event-type header is missing is answered 403 [not a hook]; nothing is
    enqueued. *)
Theorem missing_event_not_a_hook app request w :
  from_github (remote_addr request) (github_networks app) = true ->
  X_GitHub_Event request = None ->
  hook app request w =
    (Ok (respond [("status", JStr "not a hook")] 403),
     {| queue := queue w; slack := slack w;
        trace := trace w ++ [EvInfo "Received a non-hook request"] |}).
Proof.
  intros Hgh Hev. unfold hook. rewrite Hgh, Hev. reflexivity.
Qed.

(** C5, as the code has it.  A request from an allowlisted address whose
    event type is present, not empty, and none of [ping], [watch] and
    [fork] is answered 501 [unhandled event] with that type; the queue
    and the trace are left as they were. *)
Theorem unhandled_event_501 app request w event_type :
  from_github (remote_addr request) (github_networks app) = true ->
  X_GitHub_Event request = Some event_type ->
  event_type <> "" ->
  event_type <> "ping" -> event_type <> "watch" -> event_type <> "fork" ->
  hook app request w =
    (Ok (respond [("status", JStr "unhandled event");
                  ("event", JStr event_type)] 501), w).
Proof.
  intros Hgh Hev Hne Hping Hwatch Hfork. unfold hook. rewrite Hgh, Hev.
  apply String.eqb_neq in Hping, Hwatch, Hfork.
  destruct event_type as [|c rest]; [congruence|].
  cbv beta iota. rewrite Hping, Hwatch, Hfork. reflexivity.
Qed.

(** C4.  A [watch] or [fork] request from an allowlisted address whose
    [repository.full_name] is not a key of the registry is answered 403
    [repo not allowed] with that name; the queue and the trace are left
    as they were. *)
Theorem unregistered_repo_403 app request w event_type payload full_name :
  from_github (remote_addr request) (github_networks app) = true ->
  X_GitHub_Event request = Some event_type ->
  event_type = "watch" \/ event_type = "fork" ->
  get_json request = Ok payload ->
  getitem2 payload "repository" "full_name" = Ok full_name ->
  REPOS_contains app full_name = Ok false ->
  hook app request w =
    (Ok (respond [("status", JStr "repo not allowed"); ("repo", full_name)] 403),
     w).
Proof.
  intros Hgh Hev Hty Hjson Hname Hreg. unfold hook. rewrite Hgh, Hev.
  destruct Hty as [-> | ->]; cbn [String.eqb Ascii.eqb Bool.eqb negb];
    rewrite (bind_lift_ok _ _ _ _ Hjson), (bind_lift_ok _ _ _ _ Hname),
      (bind_lift_ok _ _ _ _ Hreg); reflexivity.
Qed.

(** C6.  A [watch] request from an allowlisted address for a registered
    repository is answered 202 [handled] and puts exactly one job on the
    queue, tagged [watch] and carrying the payload.  The worker treats
    that job as a star: whenever the fields it reads are there, it calls
    [slack_notify_star] with [stars] bound to the payload's
    [repository.stargazers_count]. *)
Theorem watch_enqueues_star_job app request w payload full_name :
  from_github (remote_addr request) (github_networks app) = true ->
  X_GitHub_Event request = Some "watch" ->
  get_json request = Ok payload ->
  getitem2 payload "repository" "full_name" = Ok full_name ->
  REPOS_contains app full_name = Ok true ->
  hook app request w =
    (Ok (respond [("status", JStr "handled")] 202),
     {| queue := queue w ++ [("watch", payload)]; slack := slack w;
        trace := trace w ++ [EvPut ("watch", payload)] |}) /\
  exists repo,
    registry_lookup app payload = Ok repo /\
    forall channel login user_url repo_url stars w',
      repo_getitem repo "channel" = Ok channel ->
      getitem2 payload "sender" "login" = Ok login ->
      getitem2 payload "sender" "html_url" = Ok user_url ->
      getitem2 payload "repository" "html_url" = Ok repo_url ->
      getitem2 payload "repository" "stargazers_count" = Ok stars ->
      handle app "watch" payload w' =
        slack_notify_star channel
          (default (STAR_FORMAT app) (repo !! "STAR_FORMAT"))
          [("user", JObj [("name", login); ("url", user_url)]);
           ("repo", JObj [("name", full_name); ("url", repo_url)]);
           ("stars", stars)] w'.
Proof.
  intros Hgh Hev Hjson Hname Hreg. split.
  - unfold hook. rewrite Hgh, Hev.
    cbn [String.eqb Ascii.eqb Bool.eqb negb].
    rewrite (bind_lift_ok _ _ _ _ Hjson), (bind_lift_ok _ _ _ _ Hname),
      (bind_lift_ok _ _ _ _ Hreg). reflexivity.
  - destruct full_name as [| | | |name| |]; simpl in Hreg; try discriminate.
    injection Hreg as Hreg. apply bool_decide_eq_true in Hreg.
    destruct Hreg as [repo Hrepo]. exists repo.
    assert (Hlook : registry_lookup app payload = Ok repo).
    { unfold registry_lookup. rewrite Hname. simpl. rewrite Hrepo. reflexivity. }
    split; [assumption|].
    intros channel login user_url repo_url stars w' Hc Hl Hu Hr Hs.
    unfold handle. cbn [String.eqb Ascii.eqb Bool.eqb].
    rewrite (bind_lift_ok _ _ _ _ Hlook), (bind_lift_ok _ _ _ _ Hc),
      (bind_lift_ok _ _ _ _ Hl), (bind_lift_ok _ _ _ _ Hu),
      (bind_lift_ok _ _ _ _ Hname), (bind_lift_ok _ _ _ _ Hr),
      (bind_lift_ok _ _ _ _ Hs). reflexivity.
Qed.


(** ** The worker *)

Lemma world_eta w :
  {| queue := queue w; slack := slack w; trace := trace w ++ [] |} = w.
Proof. destruct w. simpl. rewrite app_nil_r. reflexivity. Qed.

(** Handling a job leaves the queue alone and adds to the trace the calls
    to Slack made for the job, and nothing else. *)
Lemma handle_effect app event_type payload w :
  exists r s,
    handle app event_type payload w =
      (r, {| queue := queue w; slack := s;
             trace := trace w
               ++ map post_event (job_posts app (event_type, payload)) |}).
Proof.
  rewrite handle_notification. unfold job_posts. simpl.
  destruct (notification app event_type payload) as [[[channel text]|]|e];
    simpl.
  - unfold chat_post_message.
    destruct (post_message channel text (slack w)) as [r s].
    exists r, s. reflexivity.
  - exists (Ok tt), (slack w). rewrite world_eta. reflexivity.
  - exists (Raise e), (slack w). rewrite world_eta. reflexivity.
Qed.

(** A turn of the loop on a non-empty queue: the oldest job is taken,
    handled, and an exception of [handle] ends up in the log. *)
Lemma run_iter_effect app w job rest :
  queue w = job :: rest ->
  exists s errors,
    run_iter app w =
      Some (Ok tt,
            {| queue := rest; slack := s;
               trace := trace w ++ EvGet job
                 :: map post_event (job_posts app job) ++ errors |}) /\
    (errors = [] \/ exists e, errors = [EvError e]).
Proof.
  intros Hq. unfold run_iter, queue_get. rewrite Hq.
  destruct job as [event_type payload]. unfold try_except.
  match goal with |- context [handle _ _ _ ?w1] =>
    destruct (handle_effect app event_type payload w1) as (r & s & ->)
  end.
  simpl. exists s. destruct r as [[]|e].
  - exists []. split; [|left; reflexivity].
    rewrite app_nil_r, <- app_assoc. reflexivity.
  - exists [EvError e]. split; [|right; exists e; reflexivity].
    unfold logger_error, emit. simpl. rewrite <- !app_assoc. reflexivity.
Qed.

Lemma run_iter_blocked app w : queue w = [] -> run_iter app w = None.
Proof. intros Hq. unfold run_iter, queue_get. rewrite Hq. reflexivity. Qed.

Lemma gets_app tr1 tr2 : gets (tr1 ++ tr2) = gets tr1 ++ gets tr2.
Proof. apply omap_app. Qed.

Lemma puts_app tr1 tr2 : puts (tr1 ++ tr2) = puts tr1 ++ puts tr2.
Proof. apply omap_app. Qed.

Lemma posts_app tr1 tr2 : posts (tr1 ++ tr2) = posts tr1 ++ posts tr2.
Proof. apply omap_app. Qed.

Lemma gets_post_events calls : gets (map post_event calls) = [].
Proof. induction calls; simpl; auto. Qed.

Lemma puts_post_events calls : puts (map post_event calls) = [].
Proof. induction calls; simpl; auto. Qed.

Lemma posts_post_events calls : posts (map post_event calls) = calls.
Proof.
  induction calls as [|[c t] calls IH]; simpl; [reflexivity|].
  unfold posts in *. simpl. rewrite IH. reflexivity.
Qed.

(** What a turn of the loop adds to each projection of the trace. *)
Lemma run_iter_trace app w w' :
  run_iter app w = Some (Ok tt, w') ->
  exists job,
    queue w = job :: queue w' /\
    gets (trace w') = gets (trace w) ++ [job] /\
    puts (trace w') = puts (trace w) /\
    posts (trace w') = posts (trace w) ++ job_posts app job.
Proof.
  intros Hrun. destruct (queue w) as [|job rest] eqn:Hq.
  - rewrite (run_iter_blocked app w Hq) in Hrun. discriminate.
  - destruct (run_iter_effect app w job rest Hq) as (s & errors & Heq & Herr).
    rewrite Heq in Hrun. injection Hrun as <-. exists job. simpl.
    rewrite gets_app, puts_app, posts_app. simpl.
    change (EvGet job :: ?l) with ([EvGet job] ++ l).
    rewrite !gets_app, !puts_app, !posts_app.
    rewrite gets_post_events, puts_post_events, posts_post_events.
    destruct Herr as [-> | [e ->]]; simpl; rewrite ?app_nil_r; auto.
Qed.

Lemma errors_app tr1 tr2 : errors (tr1 ++ tr2) = errors tr1 ++ errors tr2.
Proof. apply omap_app. Qed.

Lemma errors_post_events calls : errors (map post_event calls) = [].
Proof. induction calls; simpl; auto. Qed.

(** A turn of the loop, with what it logs: nothing or one exception, and
    the exception of the arguments or of the template when there is one. *)
Lemma run_iter_outcome app w job rest :
  queue w = job :: rest ->
  exists s logged,
    run_iter app w =
      Some (Ok tt,
            {| queue := rest; slack := s;
               trace := trace w ++ [EvGet job]
                 ++ map post_event (job_posts app job)
                 ++ map EvError logged |}) /\
    (length logged <= 1)%nat /\
    (forall e, notification app job.1 job.2 = Raise e -> logged = [e]).
Proof.
  intros Hq. unfold run_iter, queue_get. rewrite Hq.
  destruct job as [event_type payload]. unfold try_except.
  rewrite handle_notification. unfold job_posts. simpl.
  destruct (notification app event_type payload) as [[[channel text]|]|e];
    simpl.
  - unfold chat_post_message. simpl.
    destruct (post_message channel text (slack w)) as [[[]|e] s].
    + exists s, []. simpl. rewrite <- app_assoc.
      split; [reflexivity|]. split; [lia | discriminate].
    + exists s, [e]. unfold logger_error, emit. simpl. rewrite <- !app_assoc.
      split; [reflexivity|]. split; [lia | discriminate].
  - exists (slack w), []. simpl. split; [reflexivity|].
    split; [lia | discriminate].
  - exists (slack w), [e]. unfold logger_error, emit. simpl.
    rewrite <- app_assoc. split; [reflexivity|].
    split; [lia | intros e' [= <-]; reflexivity].
Qed.

Lemma projections_of_logged logged :
  gets (map EvError logged) = [] /\ puts (map EvError logged) = [] /\
  posts (map EvError logged) = [] /\ errors (map EvError logged) = logged.
Proof.
  induction logged as [|e logged (Hg & Hp & Hs & He)]; simpl; [auto|].
  unfold errors in *. simpl. rewrite He. auto.
Qed.

Lemma turn_projections tr job calls logged :
  let tr' := tr ++ [EvGet job] ++ map post_event calls ++ map EvError logged in
  gets tr' = gets tr ++ [job] /\ puts tr' = puts tr /\
  posts tr' = posts tr ++ calls /\ errors tr' = errors tr ++ logged.
Proof.
  destruct (projections_of_logged logged) as (Hg & Hp & Hs & He).
  cbv zeta. rewrite !gets_app, !puts_app, !posts_app, !errors_app.
  rewrite gets_post_events, puts_post_events, posts_post_events,
    errors_post_events, Hg, Hp, Hs, He.
  simpl. rewrite !app_nil_r. auto.
Qed.

(** Given as many turns as there are jobs, the loop works the queue off:
    every job is taken and handled, in order. *)
Lemma run_drains app fuel w :
  (length (queue w) < fuel)%nat ->
  exists w' logged,
    run app fuel w = (Waiting, w') /\
    queue w' = [] /\
    gets (trace w') = gets (trace w) ++ queue w /\
    puts (trace w') = puts (trace w) /\
    posts (trace w') =
      posts (trace w) ++ flat_map (job_posts app) (queue w) /\
    errors (trace w') = errors (trace w) ++ logged /\
    (length logged <= length (queue w))%nat /\
    (forall job e,
        job ∈ queue w -> notification app job.1 job.2 = Raise e ->
        e ∈ logged).
Proof.
  revert w. induction fuel as [|fuel IH]; intros w Hlen; [lia|].
  simpl. destruct (queue w) as [|job rest] eqn:Hq.
  - rewrite (run_iter_blocked app w Hq). exists w, []. simpl.
    rewrite !app_nil_r. repeat split; auto.
    intros job e Hin. inversion Hin.
  - destruct (run_iter_outcome app w job rest Hq)
      as (s & logged0 & Heq & Hlen0 & Hraise).
    rewrite Heq. simpl in Hlen.
    match goal with |- context [run app fuel ?w1] =>
      destruct (IH w1)
        as (w' & logged & Hrun & Hempty & Hg & Hp & Hposts & He & Hl & Hin);
        [simpl; lia|]
    end.
    destruct (turn_projections (trace w) job (job_posts app job) logged0)
      as (Hg0 & Hp0 & Hs0 & He0).
    cbn [queue trace] in Hg, Hp, Hposts, He, Hl, Hin.
    rewrite Hg0 in Hg. rewrite Hp0 in Hp. rewrite Hs0 in Hposts.
    rewrite He0 in He.
    exists w', (logged0 ++ logged). rewrite Hrun, Hempty, Hg, Hp, Hposts, He.
    rewrite <- !app_assoc, length_app. simpl.
    split; [reflexivity|]. split; [reflexivity|]. split; [reflexivity|].
    split; [reflexivity|]. split; [reflexivity|]. split; [reflexivity|].
    split; [lia|].
    intros job' e Hjob Hnote. apply elem_of_app.
    apply elem_of_cons in Hjob as [-> | Hjob].
    + left. rewrite (Hraise e Hnote). left.
    + right. eapply Hin; eassumption.
Qed.

(** C1.  Whatever [handle] raises for a job (a missing payload field, a
    malformed template, a failure of the notifier), the turn of the loop
    ends normally with the job consumed and the exception logged; the
    loop is never left by an exception; and given as many turns as there
    are jobs, the worker ends up waiting on the empty queue having taken
    and handled every job of the queue, in order: the calls to Slack it
    has made are those of all the jobs, the later ones included, each job
    logs at most one exception, and the exception of every job that
    fails before its call is in the log. *)
Theorem worker_fault_isolation app :
  (forall w job rest,
      queue w = job :: rest ->
      exists w1 r w2,
        queue_get w = Some (job, w1) /\
        handle app job.1 job.2 w1 = (r, w2) /\
        queue w2 = rest /\
        run_iter app w =
          Some (Ok tt,
                match r with
                | Ok _ => w2
                | Raise e =>
                    {| queue := rest; slack := slack w2;
                       trace := trace w2 ++ [EvError e] |}
                end)) /\
  (forall fuel w e, (run app fuel w).1 <> Dead e) /\
  (forall fuel w,
      (length (queue w) < fuel)%nat ->
      exists w' logged,
        run app fuel w = (Waiting, w') /\
        queue w' = [] /\
        gets (trace w') = gets (trace w) ++ queue w /\
        puts (trace w') = puts (trace w) /\
        posts (trace w') =
          posts (trace w) ++ flat_map (job_posts app) (queue w) /\
        errors (trace w') = errors (trace w) ++ logged /\
        (length logged <= length (queue w))%nat /\
        (forall job e,
            job ∈ queue w -> notification app job.1 job.2 = Raise e ->
            e ∈ logged)).
Proof.
  split; [|split].
  - intros w [event_type payload] rest Hq.
    unfold run_iter, queue_get. rewrite Hq. simpl.
    set (w1 := {| queue := rest; slack := slack w;
                  trace := trace w ++ [EvGet (event_type, payload)] |}).
    destruct (handle_effect app event_type payload w1) as (r & s & Hh).
    exists w1, r. eexists. split; [reflexivity|]. split; [exact Hh|].
    split; [reflexivity|]. unfold try_except. rewrite Hh.
    destruct r as [[]|e]; reflexivity.
  - intros fuel. induction fuel as [|fuel IH]; intros w e; simpl.
    + discriminate.
    + destruct (queue w) as [|job rest] eqn:Hq.
      * rewrite (run_iter_blocked app w Hq). discriminate.
      * destruct (run_iter_effect app w job rest Hq) as (s & errs & -> & _).
        apply IH.
  - intros fuel w. apply run_drains.
Qed.

(** C10.  A job tagged neither [watch] nor [fork] is handled by doing
    nothing: no call to Slack, no exception, the state untouched; the
    turn of the loop that takes it only records that it was taken, and
    the worker goes on with the rest of the queue. *)
Theorem other_job_is_ignored app event_type payload w :
  event_type <> "watch" -> event_type <> "fork" ->
  handle app event_type payload w = (Ok tt, w) /\
  forall rest,
    queue w = (event_type, payload) :: rest ->
    run_iter app w =
      Some (Ok tt, {| queue := rest; slack := slack w;
                      trace := trace w ++ [EvGet (event_type, payload)] |}).
Proof.
  intros Hwatch Hfork. apply String.eqb_neq in Hwatch, Hfork.
  assert (Hh : forall w0, handle app event_type payload w0 = (Ok tt, w0)).
  { intros w0. unfold handle. rewrite Hwatch, Hfork. reflexivity. }
  split; [apply Hh|].
  intros rest Hq. unfold run_iter, queue_get. rewrite Hq.
  unfold try_except. rewrite Hh. reflexivity.
Qed.


(** ** Runs of the system *)

(** What a call of [hook] can do to the shared state: nothing, one line
    of log, or one job for a registered repository put on the queue. *)
Lemma hook_effect app request w :
  (hook app request w).2 = w \/
  (hook app request w).2 =
    {| queue := queue w; slack := slack w;
       trace := trace w ++ [EvInfo "Received a non-hook request"] |} \/
  exists job,
    registered app job /\
    (hook app request w).2 =
      {| queue := queue w ++ [job]; slack := slack w;
         trace := trace w ++ [EvPut job] |}.
Proof.
  assert (Hreg : forall payload full_name tag,
             getitem2 payload "repository" "full_name" = Ok full_name ->
             REPOS_contains app full_name = Ok true ->
             registered app (tag, payload)).
  { intros payload full_name tag Hname Hc.
    destruct full_name; simpl in Hc; try discriminate.
    injection Hc as Hc. apply bool_decide_eq_true in Hc as [repo Hrepo].
    eexists _, repo. split; [exact Hname | exact Hrepo]. }
  unfold hook.
  destruct (from_github _ _); simpl; [|left; reflexivity].
  destruct (X_GitHub_Event request) as [[|c rest]|];
    [right; left; reflexivity | | right; left; reflexivity].
  repeat case_match; try (left; reflexivity);
    rewrite bind_lift;
    (destruct (get_json request) as [payload|]; [|left; reflexivity]);
    rewrite bind_lift;
    (destruct (getitem2 payload "repository" "full_name") as [full_name|] eqn:Hname;
     [|left; reflexivity]);
    rewrite bind_lift;
    (destruct (REPOS_contains app full_name) as [[]|] eqn:Hc;
     simpl; try (left; reflexivity));
    right; right; eexists; (split; [eapply Hreg; eassumption | reflexivity]).
Qed.

(** The queue hands out the jobs in the order they were put, each once;
    the calls to Slack are those of the jobs taken, in the order the jobs
    were taken; and only jobs for registered repositories are ever put. *)
Lemma reachable_invariant app w :
  reachable app w ->
  gets (trace w) ++ queue w = puts (trace w) /\
  posts (trace w) = flat_map (job_posts app) (gets (trace w)) /\
  Forall (registered app) (puts (trace w)).
Proof.
  induction 1 as [s | w request Hw (IHq & IHp & IHr) | w w' Hw (IHq & IHp & IHr) Hrun].
  - simpl. auto.
  - destruct (hook_effect app request w) as [-> | [-> | (job & Hjob & ->)]];
      simpl; rewrite ?gets_app, ?puts_app, ?posts_app; simpl;
      rewrite ?app_nil_r; auto.
    split; [|split].
    + rewrite app_assoc, IHq. reflexivity.
    + assumption.
    + apply Forall_app. split; [assumption|]. constructor; [assumption|constructor].
  - destruct (run_iter_trace app w w' Hrun) as (job & Hq & Hg & Hp & Hposts).
    rewrite Hg, Hp, Hposts. split; [|split].
    + rewrite <- app_assoc. simpl. rewrite <- Hq. assumption.
    + rewrite flat_map_app. simpl. rewrite app_nil_r, IHp. reflexivity.
    + assumption.
Qed.

Lemma registered_lookup app job :
  registered app job -> exists repo, registry_lookup app job.2 = Ok repo.
Proof.
  intros (name & repo & Hname & Hrepo). exists repo.
  unfold registry_lookup. rewrite Hname. simpl. rewrite Hrepo. reflexivity.
Qed.

(** C2.  In every run of the system the jobs taken by the worker, followed
    by the jobs still queued, are the jobs put, in the order they were
    put: the queue neither reorders nor duplicates, and the i-th job
    taken is the i-th job put.  The calls to Slack are those of the jobs
    taken, job after job in that order, so the call for a job put earlier
    comes before the call for a job put later. *)
Theorem queue_is_fifo app w :
  reachable app w ->
  gets (trace w) ++ queue w = puts (trace w) /\
  (forall i job, gets (trace w) !! i = Some job ->
                 puts (trace w) !! i = Some job) /\
  posts (trace w) = flat_map (job_posts app) (gets (trace w)).
Proof.
  intros Hw. destruct (reachable_invariant app w Hw) as (Hq & Hp & _).
  split; [assumption|]. split; [|assumption].
  intros i job Hi. rewrite <- Hq. apply lookup_app_l_Some. assumption.
Qed.

(** C3.  In every run of the system, every job ever put on the queue is
    for a repository of the registry; so for every job still queued and
    for every job the worker has taken, the lookup of the registry made
    by [handle] succeeds. *)
Theorem queued_jobs_are_registered app w :
  reachable app w ->
  Forall (registered app) (puts (trace w)) /\
  Forall (fun job => exists repo, registry_lookup app job.2 = Ok repo)
         (queue w) /\
  Forall (fun job => exists repo, registry_lookup app job.2 = Ok repo)
         (gets (trace w)).
Proof.
  intros Hw. destruct (reachable_invariant app w Hw) as (Hq & _ & Hreg).
  split; [assumption|].
  rewrite <- Hq in Hreg. apply Forall_app in Hreg as [Hg Hqueue].
  split; eapply Forall_impl; eauto using registered_lookup.
Qed.


(** ** The messages *)

Lemma append_empty_r (s : string) : s +:+ "" = s.
Proof.
  induction s as [|c s IH]; [reflexivity|].
  change (String c (s +:+ "") = String c s). rewrite IH. reflexivity.
Qed.

(** What the built-in fork template renders to. *)
Lemma format_default_fork login user_url full_name repo_url forks :
  format DEFAULT_FORK_FORMAT
    [("user", JObj [("name", login); ("url", user_url)]);
     ("repo", JObj [("name", full_name); ("url", repo_url)]);
     ("forks", forks)] =
  Ok (fork_message (str user_url) (str login) (str repo_url) (str full_name)
                   (str forks)).
Proof.
  unfold format.
  let ps := eval vm_compute in (scan InText DEFAULT_FORK_FORMAT) in
  change (scan InText DEFAULT_FORK_FORMAT) with ps.
  cbn -[str]. rewrite append_empty_r. reflexivity.
Qed.

(** C8, as the code has it.  For a fork job of a registered repository
    whose entry has no [FORK_FORMAT], the worker formats the message with
    the global [FORK_FORMAT], with the actor taken from [sender.login]
    and [sender.html_url], the repository from [repository.full_name] and
    [repository.html_url], and the count from [repository.forks]; with
    the built-in template the text sent is
    [<actor url|actor> forked <repository url|repository> :goldfork: count]. *)
Theorem fork_job_default_message
    app payload repo channel login user_url full_name repo_url forks w :
  registry_lookup app payload = Ok repo ->
  repo !! "FORK_FORMAT" = None ->
  repo_getitem repo "channel" = Ok channel ->
  getitem2 payload "sender" "login" = Ok login ->
  getitem2 payload "sender" "html_url" = Ok user_url ->
  getitem2 payload "repository" "full_name" = Ok full_name ->
  getitem2 payload "repository" "html_url" = Ok repo_url ->
  getitem2 payload "repository" "forks" = Ok forks ->
  handle app "fork" payload w =
    slack_notify_fork channel (FORK_FORMAT app)
      [("user", JObj [("name", login); ("url", user_url)]);
       ("repo", JObj [("name", full_name); ("url", repo_url)]);
       ("forks", forks)] w /\
  (FORK_FORMAT app = DEFAULT_FORK_FORMAT ->
   handle app "fork" payload w =
     chat_post_message channel
       (fork_message (str user_url) (str login) (str repo_url)
                     (str full_name) (str forks)) w).
Proof.
  intros Hrepo Hfmt Hc Hl Hu Hn Hr Hf.
  assert (Hh : handle app "fork" payload w =
               slack_notify_fork channel (FORK_FORMAT app)
                 [("user", JObj [("name", login); ("url", user_url)]);
                  ("repo", JObj [("name", full_name); ("url", repo_url)]);
                  ("forks", forks)] w).
  { unfold handle. cbn [String.eqb Ascii.eqb Bool.eqb].
    rewrite (bind_lift_ok _ _ _ _ Hrepo), Hfmt, (bind_lift_ok _ _ _ _ Hc),
      (bind_lift_ok _ _ _ _ Hl), (bind_lift_ok _ _ _ _ Hu),
      (bind_lift_ok _ _ _ _ Hn), (bind_lift_ok _ _ _ _ Hr),
      (bind_lift_ok _ _ _ _ Hf). reflexivity. }
  split; [exact Hh|].
  intros Hdefault. rewrite Hh, Hdefault. unfold slack_notify_fork.
  rewrite (bind_lift_ok _ _ _ _ (format_default_fork _ _ _ _ _)).
  reflexivity.
Qed.

End Properties.

(** * Further properties of the endpoint *)

Section Endpoint.
Context `{!PyRuntime} `{!Notifier}.
Implicit Types (app : App) (w : World) (request : Request) (job : Job).

(** X1.  A [ping] from an allowlisted address is answered 200 [pong]; the
    queue, the trace and the notifier are left as they were. *)
Theorem ping_pong app request w :
  from_github (remote_addr request) (github_networks app) = true ->
  X_GitHub_Event request = Some "ping" ->
  hook app request w = (Ok (respond [("status", JStr "pong")] 200), w).
Proof.
  intros Hgh Hev. unfold hook. rewrite Hgh, Hev. reflexivity.
Qed.

(** X2.  A [fork] request from an allowlisted address for a registered
    repository is answered 202 [handled] and puts exactly one job on the
    queue, tagged [fork] and carrying the payload; the worker handles that
    job with [slack_notify_fork], with [forks] bound to the payload's
    [repository.forks]. *)
Theorem fork_enqueues_fork_job app request w payload full_name :
  from_github (remote_addr request) (github_networks app) = true ->
  X_GitHub_Event request = Some "fork" ->
  get_json request = Ok payload ->
  getitem2 payload "repository" "full_name" = Ok full_name ->
  REPOS_contains app full_name = Ok true ->
  hook app request w =
    (Ok (respond [("status", JStr "handled")] 202),
     {| queue := queue w ++ [("fork", payload)]; slack := slack w;
        trace := trace w ++ [EvPut ("fork", payload)] |}) /\
  exists repo,
    registry_lookup app payload = Ok repo /\
    forall channel login user_url repo_url forks w',
      repo_getitem repo "channel" = Ok channel ->
      getitem2 payload "sender" "login" = Ok login ->
      getitem2 payload "sender" "html_url" = Ok user_url ->
      getitem2 payload "repository" "html_url" = Ok repo_url ->
      getitem2 payload "repository" "forks" = Ok forks ->
      handle app "fork" payload w' =
        slack_notify_fork channel
          (default (FORK_FORMAT app) (repo !! "FORK_FORMAT"))
          [("user", JObj [("name", login); ("url", user_url)]);
           ("repo", JObj [("name", full_name); ("url", repo_url)]);
           ("forks", forks)] w'.
Proof.
  intros Hgh Hev Hjson Hname Hreg. split.
  - unfold hook. rewrite Hgh, Hev.
    cbn [String.eqb Ascii.eqb Bool.eqb negb].
    rewrite (bind_lift_ok _ _ _ _ Hjson), (bind_lift_ok _ _ _ _ Hname),
      (bind_lift_ok _ _ _ _ Hreg). reflexivity.
  - destruct full_name as [| | | |name| |]; simpl in Hreg; try discriminate.
    injection Hreg as Hreg. apply bool_decide_eq_true in Hreg.
    destruct Hreg as [repo Hrepo]. exists repo.
    assert (Hlook : registry_lookup app payload = Ok repo).
    { unfold registry_lookup. rewrite Hname. simpl. rewrite Hrepo. reflexivity. }
    split; [assumption|].
    intros channel login user_url repo_url forks w' Hc Hl Hu Hr Hf.
    unfold handle. cbn [String.eqb Ascii.eqb Bool.eqb].
    rewrite (bind_lift_ok _ _ _ _ Hlook), (bind_lift_ok _ _ _ _ Hc),
      (bind_lift_ok _ _ _ _ Hl), (bind_lift_ok _ _ _ _ Hu),
      (bind_lift_ok _ _ _ _ Hname), (bind_lift_ok _ _ _ _ Hr),
      (bind_lift_ok _ _ _ _ Hf). reflexivity.
Qed.

(** The three steps [hook] takes on the body of a [watch] or [fork]
    request before it answers. *)
Lemma hook_accept_branch app request w tag :
  from_github (remote_addr request) (github_networks app) = true ->
  X_GitHub_Event request = Some tag ->
  tag = "watch" \/ tag = "fork" ->
  hook app request w =
    match get_json request with
    | Raise e => (Raise e, w)
    | Ok payload =>
        match getitem2 payload "repository" "full_name" with
        | Raise e => (Raise e, w)
        | Ok repo =>
            match REPOS_contains app repo with
            | Raise e => (Raise e, w)
            | Ok false =>
                (Ok (respond [("status", JStr "repo not allowed");
                              ("repo", repo)] 403), w)
            | Ok true =>
                (Ok (respond [("status", JStr "handled")] 202),
                 {| queue := queue w ++ [(tag, payload)]; slack := slack w;
                    trace := trace w ++ [EvPut (tag, payload)] |})
            end
        end
    end.
Proof.
  intros Hgh Hev Htag. unfold hook. rewrite Hgh, Hev.
  destruct Htag as [-> | ->]; cbn [String.eqb Ascii.eqb Bool.eqb negb];
    rewrite bind_lift; (destruct (get_json request) as [payload|]; [|reflexivity]);
    rewrite bind_lift;
    (destruct (getitem2 payload "repository" "full_name") as [repo|];
     [|reflexivity]);
    rewrite bind_lift;
    (destruct (REPOS_contains app repo) as [[]|]; reflexivity).
Qed.

(** X3.  Whatever the request, [hook] never calls the notifier and never
    takes a job; it answers 202 exactly when it has put one job on the
    queue, that job being the event type and the payload of the request;
    with any other answer the queue is as before; and when an exception
    leaves [hook] the whole state is as before. *)
Theorem hook_answer_and_queue app request w :
  slack (hook app request w).2 = slack w /\
  gets (trace (hook app request w).2) = gets (trace w) /\
  match (hook app request w).1 with
  | Ok response =>
      (status_code response = 202 /\
       exists tag payload,
         X_GitHub_Event request = Some tag /\
         (tag = "watch" \/ tag = "fork") /\
         get_json request = Ok payload /\
         queue (hook app request w).2 = queue w ++ [(tag, payload)]) \/
      ((status_code response = 200 \/ status_code response = 403 \/
        status_code response = 501) /\
       queue (hook app request w).2 = queue w)
  | Raise e => (hook app request w).2 = w
  end.
Proof.
  destruct (from_github (remote_addr request) (github_networks app)) eqn:Hgh.
  2: { unfold hook. rewrite Hgh. simpl. repeat split. right. auto. }
  destruct (X_GitHub_Event request) as [tag|] eqn:Hev.
  2: { unfold hook. rewrite Hgh, Hev. simpl. rewrite gets_app, app_nil_r.
       repeat split. right. auto. }
  assert (Hbranch : tag = "watch" \/ tag = "fork" ->
            slack (hook app request w).2 = slack w /\
            gets (trace (hook app request w).2) = gets (trace w) /\
            match (hook app request w).1 with
            | Ok response =>
                (status_code response = 202 /\
                 exists tag' payload,
                   Some tag = Some tag' /\
                   (tag' = "watch" \/ tag' = "fork") /\
                   get_json request = Ok payload /\
                   queue (hook app request w).2 = queue w ++ [(tag', payload)]) \/
                ((status_code response = 200 \/ status_code response = 403 \/
                  status_code response = 501) /\
                 queue (hook app request w).2 = queue w)
            | Raise e => (hook app request w).2 = w
            end).
  { intros Htag.
    rewrite (hook_accept_branch app request w tag Hgh Hev Htag).
    destruct (get_json request) as [payload|]; simpl; auto.
    destruct (getitem2 payload "repository" "full_name") as [repo|];
      simpl; auto.
    destruct (REPOS_contains app repo) as [[]|]; simpl; auto.
    - rewrite gets_app, app_nil_r. repeat split. left. split; [reflexivity|].
      exists tag, payload. auto.
    - repeat split. right. auto. }
  destruct (String.eqb tag "watch") eqn:Hw;
    [apply String.eqb_eq in Hw; exact (Hbranch (or_introl Hw))|].
  destruct (String.eqb tag "fork") eqn:Hf;
    [apply String.eqb_eq in Hf; exact (Hbranch (or_intror Hf))|].
  clear Hbranch. unfold hook. rewrite Hgh, Hev.
  destruct tag as [|c rest].
  - simpl. rewrite gets_app, app_nil_r. repeat split. right. auto.
  - cbv beta iota. rewrite Hw, Hf.
    destruct (String.eqb (String c rest) "ping"); simpl; repeat split;
      right; auto.
Qed.

(** X4.  [hook] raises only on the body of a [watch] or [fork] request from
    an allowlisted address: every other request is answered.  What it then
    raises is the exception of [get_json], of the access to
    [repository.full_name] (a [KeyError] for a missing key, a [TypeError]
    for a body that is not a dict), or of the membership test (a
    [TypeError] for a name that is a list or a dict). *)
Theorem hook_raises_on_payload_only app request w e :
  (hook app request w).1 = Raise e ->
  from_github (remote_addr request) (github_networks app) = true /\
  (X_GitHub_Event request = Some "watch" \/
   X_GitHub_Event request = Some "fork") /\
  (payload ← get_json request;
   repo ← getitem2 payload "repository" "full_name";
   REPOS_contains app repo) = Raise e.
Proof.
  intros Hraise.
  destruct (from_github (remote_addr request) (github_networks app)) eqn:Hgh.
  2: { unfold hook in Hraise. rewrite Hgh in Hraise. discriminate. }
  destruct (X_GitHub_Event request) as [tag|] eqn:Hev.
  2: { unfold hook in Hraise. rewrite Hgh, Hev in Hraise. discriminate. }
  assert (Hbranch : forall t, tag = t -> t = "watch" \/ t = "fork" ->
            (payload ← get_json request;
             repo ← getitem2 payload "repository" "full_name";
             REPOS_contains app repo) = Raise e).
  { intros t -> Ht.
    rewrite (hook_accept_branch app request w t Hgh Hev Ht) in Hraise.
    destruct (get_json request) as [payload|]; simpl in *; [|congruence].
    destruct (getitem2 payload "repository" "full_name") as [repo|];
      simpl in *; [|congruence].
    destruct (REPOS_contains app repo) as [[]|]; simpl in *; congruence. }
  destruct (String.eqb tag "watch") eqn:Hw.
  { apply String.eqb_eq in Hw. split; [reflexivity|].
    split; [left; congruence | exact (Hbranch _ Hw (or_introl eq_refl))]. }
  destruct (String.eqb tag "fork") eqn:Hf.
  { apply String.eqb_eq in Hf. split; [reflexivity|].
    split; [right; congruence | exact (Hbranch _ Hf (or_intror eq_refl))]. }
  exfalso. unfold hook in Hraise. rewrite Hgh, Hev in Hraise.
  destruct tag as [|c rest]; [discriminate|].
  cbv beta iota in Hraise. rewrite Hw, Hf in Hraise.
  destruct (String.eqb (String c rest) "ping"); discriminate.
Qed.



(** X5.  The origin check over two lists of networks put together lets an
    address through exactly when one of the two does, and the order in
    which the networks are listed does not matter. *)
Theorem allowlist_union addr networks1 networks2 :
  from_github addr (networks1 ++ networks2) =
    from_github addr networks1 || from_github addr networks2 /\
  (forall networks, networks1 ≡ₚ networks ->
     from_github addr networks1 = from_github addr networks).
Proof.
  split.
  - induction networks1 as [|n rest IH]; simpl; [reflexivity|].
    destruct (network_contains n addr); [reflexivity | exact IH].
  - intros networks Hperm.
    induction Hperm as [|n l l' _ IH|n m l|l l' l'' _ IH1 _ IH2]; simpl.
    + reflexivity.
    + rewrite IH. reflexivity.
    + destruct (network_contains n addr), (network_contains m addr);
        reflexivity.
    + congruence.
Qed.

(** X6.  The two ends of the prefix length: a network whose prefix is the
    whole width holds its own address and no other, and a network of prefix
    zero holds every address of its family. *)
Theorem network_prefix_bounds n a :
  0 <= addr_value a <= max_int (addr_version a) ->
  0 <= net_value n <= max_int (net_version n) ->
  (prefixlen n = width (net_version n) ->
   network_contains n a = true <->
   net_version n = addr_version a /\ addr_value a = net_value n) /\
  (prefixlen n = 0 ->
   network_contains n a = true <-> net_version n = addr_version a).
Proof.
  intros Ha Hn. unfold network_contains. split; intros Hp; rewrite Hp.
  - rewrite Z.sub_diag, !Z.shiftr_0_r.
    destruct (net_version n), (addr_version a); cbn [version_eqb];
      rewrite ?Z.eqb_eq; intuition congruence.
  - rewrite Z.sub_0_r.
    assert (Hz : forall v x, 0 <= x <= max_int v -> Z.shiftr x (width v) = 0).
    { intros v x Hx. unfold max_int in Hx.
      assert (0 < width v) by (destruct v; simpl; lia).
      rewrite Z.shiftr_div_pow2 by lia.
      apply Z.div_small. lia. }
    destruct (net_version n) eqn:Hvn, (addr_version a) eqn:Hva;
      cbn [version_eqb];
      try (split; [discriminate | congruence]).
    + rewrite (Hz IPv4 _ Hn), (Hz IPv4 _ Ha). split; reflexivity.
    + rewrite (Hz IPv6 _ Hn), (Hz IPv6 _ Ha). split; reflexivity.
Qed.

(** X7.  The membership test of [hook] and the lookup of [handle] agree on
    every key: the test says yes exactly when the lookup finds an entry,
    no exactly when the lookup raises [KeyError], and it raises [TypeError]
    exactly when the lookup does. *)
Theorem registry_test_and_lookup_agree app key :
  (REPOS_contains app key = Ok true <->
   exists repo, REPOS_getitem app key = Ok repo) /\
  (REPOS_contains app key = Ok false <->
   REPOS_getitem app key = Raise (KeyError key)) /\
  (forall what, REPOS_contains app key = Raise (TypeError what) <->
                REPOS_getitem app key = Raise (TypeError what)).
Proof.
  destruct key as [| | | |name| |]; simpl.
  1-4, 6-7: split; [split; [discriminate | intros [? ?]; discriminate]|];
    split; [split; congruence | intros what; split; congruence].
  destruct (REPOS app !! name) as [repo|] eqn:Hrepo.
  - rewrite bool_decide_eq_true_2 by eauto.
    split; [split; eauto|]. split; [split; discriminate|].
    intros what; split; discriminate.
  - rewrite bool_decide_eq_false_2 by (intros [? ?]; discriminate).
    split; [split; [discriminate | intros [? ?]; discriminate]|].
    split; [split; reflexivity|]. intros what; split; discriminate.
Qed.

End Endpoint.

(** * Further properties of the worker *)

Section Notifications.
Context `{!PyRuntime} `{!Notifier}.
Implicit Types (app : App) (w : World) (request : Request) (job : Job).

(** X8.  Handling a job never touches the queue and calls the notifier at
    most once: the call, if any, is the one [notification] computes, its
    outcome is the outcome of [handle], and without a call the state is
    left exactly as it was. *)
Theorem handle_calls_at_most_once app event_type payload w :
  exists calls,
    calls = job_posts app (event_type, payload) /\
    (length calls <= 1)%nat /\
    queue (handle app event_type payload w).2 = queue w /\
    trace (handle app event_type payload w).2 =
      trace w ++ map post_event calls /\
    (calls = [] -> (handle app event_type payload w).2 = w) /\
    (forall channel text,
        calls = [(channel, text)] ->
        (handle app event_type payload w).1 =
          (post_message channel text (slack w)).1 /\
        slack (handle app event_type payload w).2 =
          (post_message channel text (slack w)).2).
Proof.
  exists (job_posts app (event_type, payload)). split; [reflexivity|].
  rewrite handle_notification. unfold job_posts. simpl.
  destruct (notification app event_type payload) as [[[channel text]|]|e];
    simpl.
  - unfold chat_post_message.
    destruct (post_message channel text (slack w)) as [r s] eqn:Hpost.
    simpl. split; [lia|]. split; [reflexivity|]. split; [reflexivity|].
    split; [discriminate|].
    intros c t [= <- <-]. rewrite Hpost. split; reflexivity.
  - rewrite app_nil_r. split; [lia|]. split; [reflexivity|].
    split; [reflexivity|]. split; [reflexivity | discriminate].
  - rewrite app_nil_r. split; [lia|]. split; [reflexivity|].
    split; [reflexivity|]. split; [reflexivity | discriminate].
Qed.

(** X9.  A [watch] or [fork] job for a repository that is not in the
    registry makes [handle] raise [KeyError] with the repository's name,
    before any call to Slack: the state is left as it was. *)
Theorem handle_unregistered_repository app event_type payload name w :
  event_type = "watch" \/ event_type = "fork" ->
  getitem2 payload "repository" "full_name" = Ok (JStr name) ->
  REPOS app !! name = None ->
  handle app event_type payload w = (Raise (KeyError (JStr name)), w).
Proof.
  intros Hty Hname Hrepo.
  assert (Hlook : registry_lookup app payload = Raise (KeyError (JStr name))).
  { unfold registry_lookup. rewrite Hname. simpl. rewrite Hrepo. reflexivity. }
  unfold handle.
  destruct Hty as [-> | ->]; cbn [String.eqb Ascii.eqb Bool.eqb];
    rewrite bind_lift, Hlook; reflexivity.
Qed.

(** X10.  A [watch] or [fork] job for a registered repository whose entry
    has no [channel] makes [handle] raise [KeyError('channel')], whatever
    the payload holds besides; no call to Slack is made. *)
Theorem handle_missing_channel app event_type payload repo w :
  event_type = "watch" \/ event_type = "fork" ->
  registry_lookup app payload = Ok repo ->
  repo !! "channel" = None ->
  handle app event_type payload w = (Raise (KeyError (JStr "channel")), w).
Proof.
  intros Hty Hlook Hchannel.
  assert (Hc : repo_getitem repo "channel" = Raise (KeyError (JStr "channel"))).
  { unfold repo_getitem. rewrite Hchannel. reflexivity. }
  unfold handle.
  destruct Hty as [-> | ->]; cbn [String.eqb Ascii.eqb Bool.eqb];
    rewrite (bind_lift_ok _ _ _ _ Hlook), bind_lift, Hc; reflexivity.
Qed.

(** X11.  A template of the repository's own takes the place of the global
    one: with [STAR_FORMAT] in the entry a [watch] job is formatted with
    it, with [FORK_FORMAT] in the entry a [fork] job is, whatever the
    global templates are. *)
Theorem repository_template_overrides
    app payload repo channel login user_url full_name repo_url template w :
  registry_lookup app payload = Ok repo ->
  repo_getitem repo "channel" = Ok channel ->
  getitem2 payload "sender" "login" = Ok login ->
  getitem2 payload "sender" "html_url" = Ok user_url ->
  getitem2 payload "repository" "full_name" = Ok full_name ->
  getitem2 payload "repository" "html_url" = Ok repo_url ->
  (forall stars,
      repo !! "STAR_FORMAT" = Some template ->
      getitem2 payload "repository" "stargazers_count" = Ok stars ->
      handle app "watch" payload w =
        slack_notify_star channel template
          [("user", JObj [("name", login); ("url", user_url)]);
           ("repo", JObj [("name", full_name); ("url", repo_url)]);
           ("stars", stars)] w) /\
  (forall forks,
      repo !! "FORK_FORMAT" = Some template ->
      getitem2 payload "repository" "forks" = Ok forks ->
      handle app "fork" payload w =
        slack_notify_fork channel template
          [("user", JObj [("name", login); ("url", user_url)]);
           ("repo", JObj [("name", full_name); ("url", repo_url)]);
           ("forks", forks)] w).
Proof.
  intros Hrepo Hc Hl Hu Hn Hr.
  split; intros count Hfmt Hcount; unfold handle;
    cbn [String.eqb Ascii.eqb Bool.eqb];
    rewrite (bind_lift_ok _ _ _ _ Hrepo), Hfmt, (bind_lift_ok _ _ _ _ Hc),
      (bind_lift_ok _ _ _ _ Hl), (bind_lift_ok _ _ _ _ Hu),
      (bind_lift_ok _ _ _ _ Hn), (bind_lift_ok _ _ _ _ Hr),
      (bind_lift_ok _ _ _ _ Hcount); reflexivity.
Qed.

(** What the built-in star template renders to. *)
Lemma format_default_star login user_url full_name repo_url stars :
  format DEFAULT_STAR_FORMAT
    [("user", JObj [("name", login); ("url", user_url)]);
     ("repo", JObj [("name", full_name); ("url", repo_url)]);
     ("stars", stars)] =
  Ok (star_message (str user_url) (str login) (str repo_url) (str full_name)
                   (str stars)).
Proof.
  unfold format.
  let ps := eval vm_compute in (scan InText DEFAULT_STAR_FORMAT) in
  change (scan InText DEFAULT_STAR_FORMAT) with ps.
  cbn -[str]. rewrite append_empty_r. reflexivity.
Qed.

(** X12.  For a watch job of a registered repository whose entry has no
    [STAR_FORMAT], with the built-in global template, the text sent to the
    repository's channel is
    [<actor url|actor> starred <repository url|repository> ★ count], the
    count being [repository.stargazers_count]. *)
Theorem watch_job_default_message
    app payload repo channel login user_url full_name repo_url stars w :
  STAR_FORMAT app = DEFAULT_STAR_FORMAT ->
  registry_lookup app payload = Ok repo ->
  repo !! "STAR_FORMAT" = None ->
  repo_getitem repo "channel" = Ok channel ->
  getitem2 payload "sender" "login" = Ok login ->
  getitem2 payload "sender" "html_url" = Ok user_url ->
  getitem2 payload "repository" "full_name" = Ok full_name ->
  getitem2 payload "repository" "html_url" = Ok repo_url ->
  getitem2 payload "repository" "stargazers_count" = Ok stars ->
  handle app "watch" payload w =
    chat_post_message channel
      (star_message (str user_url) (str login) (str repo_url)
                    (str full_name) (str stars)) w.
Proof.
  intros Hdefault Hrepo Hfmt Hc Hl Hu Hn Hr Hs.
  unfold handle. cbn [String.eqb Ascii.eqb Bool.eqb].
  rewrite (bind_lift_ok _ _ _ _ Hrepo), Hfmt, (bind_lift_ok _ _ _ _ Hc),
    (bind_lift_ok _ _ _ _ Hl), (bind_lift_ok _ _ _ _ Hu),
    (bind_lift_ok _ _ _ _ Hn), (bind_lift_ok _ _ _ _ Hr),
    (bind_lift_ok _ _ _ _ Hs).
  simpl. rewrite Hdefault. unfold slack_notify_star.
  rewrite (bind_lift_ok _ _ _ _ (format_default_star _ _ _ _ _)).
  reflexivity.
Qed.


(** X13.  When the call to Slack raises, the turn of the loop still ends
    normally: the job is gone from the queue, the one call is on record
    followed by the logged exception, and no second call is made. *)
Theorem notifier_failure_is_logged
    app w event_type payload rest channel text e s :
  queue w = (event_type, payload) :: rest ->
  notification app event_type payload = Ok (Some (channel, text)) ->
  post_message channel text (slack w) = (Raise e, s) ->
  run_iter app w =
    Some (Ok tt,
          {| queue := rest; slack := s;
             trace := trace w ++ [EvGet (event_type, payload);
                                  EvPost channel text; EvError e] |}).
Proof.
  intros Hq Hnote Hpost. unfold run_iter, queue_get. rewrite Hq.
  unfold try_except. rewrite handle_notification, Hnote.
  unfold chat_post_message. simpl. rewrite Hpost.
  unfold logger_error, emit. simpl. rewrite <- !app_assoc. reflexivity.
Qed.

Lemma job_posts_length app job : (length (job_posts app job) <= 1)%nat.
Proof.
  unfold job_posts.
  destruct (notification app job.1 job.2) as [[call|]|e]; simpl; lia.
Qed.

(** X14.  In every run of the system the jobs taken followed by the jobs
    still queued are exactly the jobs put, in order, so each job put is
    either still queued or was taken once; the calls to Slack are those of
    the jobs taken, job by job, and a job has at most one, so no job is
    notified twice; and the exceptions logged are no more than the jobs
    taken. *)
Theorem deliveries_at_most_once app w :
  reachable app w ->
  gets (trace w) ++ queue w = puts (trace w) /\
  posts (trace w) = flat_map (job_posts app) (gets (trace w)) /\
  (forall job, (length (job_posts app job) <= 1)%nat) /\
  (length (errors (trace w)) <= length (gets (trace w)))%nat.
Proof.
  intros Hw.
  destruct (reachable_invariant app w Hw) as (Hq & Hp & _).
  split; [exact Hq|]. split; [exact Hp|].
  split; [apply job_posts_length|]. clear Hq Hp.
  induction Hw as [s | w request Hw IH | w w' Hw IH Hrun].
  - simpl. lia.
  - destruct (hook_effect app request w) as [-> | [-> | (job & _ & ->)]];
      simpl; rewrite ?errors_app, ?gets_app; simpl;
      rewrite ?app_nil_r; lia.
  - destruct (queue w) as [|job rest] eqn:Hq.
    + rewrite (run_iter_blocked app w Hq) in Hrun. discriminate.
    + destruct (run_iter_outcome app w job rest Hq)
        as (s & logged & Heq & Hlen & _).
      rewrite Heq in Hrun. injection Hrun as <-.
      destruct (turn_projections (trace w) job (job_posts app job) logged)
        as (Hg & _ & _ & He).
      change (length (errors (trace w ++ [EvGet job]
                ++ map post_event (job_posts app job) ++ map EvError logged))
              <= length (gets (trace w ++ [EvGet job]
                ++ map post_event (job_posts app job)
                ++ map EvError logged)))%nat.
      rewrite Hg, He, !length_app. simpl. lia.
Qed.

(** X15.  End to end, on an idle worker: a [watch] or [fork] request from
    an allowlisted address for a registered repository is answered 202
    [handled], and the next turn of the worker takes that very job and
    makes the call to Slack that the payload and the templates determine.
    The trace grows by the put, the get, that one call and, when the call
    raises, the logged exception; the queue is empty again. *)
Theorem accepted_event_is_notified
    app request w tag payload full_name channel text :
  queue w = [] ->
  from_github (remote_addr request) (github_networks app) = true ->
  X_GitHub_Event request = Some tag ->
  tag = "watch" \/ tag = "fork" ->
  get_json request = Ok payload ->
  getitem2 payload "repository" "full_name" = Ok full_name ->
  REPOS_contains app full_name = Ok true ->
  notification app tag payload = Ok (Some (channel, text)) ->
  (hook app request w).1 = Ok (respond [("status", JStr "handled")] 202) /\
  run_iter app (hook app request w).2 =
    Some (Ok tt,
          {| queue := [];
             slack := (post_message channel text (slack w)).2;
             trace := trace w
               ++ [EvPut (tag, payload); EvGet (tag, payload);
                   EvPost channel text]
               ++ match (post_message channel text (slack w)).1 with
                  | Ok _ => []
                  | Raise e => [EvError e]
                  end |}).
Proof.
  intros Hq Hgh Hev Htag Hjson Hname Hreg Hnote.
  rewrite (hook_accept_branch app request w tag Hgh Hev Htag).
  rewrite Hjson, Hname, Hreg. split; [reflexivity|].
  unfold run_iter, queue_get. cbn [snd queue slack trace]. rewrite Hq.
  cbn [List.app]. unfold try_except. rewrite handle_notification, Hnote.
  unfold chat_post_message. cbn [slack queue trace].
  destruct (post_message channel text (slack w)) as [[[]|e] s];
    unfold logger_error, emit; cbn [fst snd queue slack trace];
    rewrite <- !app_assoc; reflexivity.
Qed.

(** [scan] on text without braces. *)
Lemma scan_plain (s : string) :
  forallb (fun c => negb (is_brace c)) (list_ascii_of_string s) = true ->
  scan InText s = Some (map Lit (list_ascii_of_string s)).
Proof.
  induction s as [|c s IH]; simpl; [reflexivity|].
  unfold is_brace at 1. intros Hs. apply andb_true_iff in Hs as [Hc Hs].
  apply negb_true_iff, orb_false_iff in Hc as [Hopen Hclose].
  rewrite Hopen, Hclose, (IH Hs). reflexivity.
Qed.

Lemma render_plain kwargs (s : string) :
  render kwargs (map Lit (list_ascii_of_string s)) = Ok s.
Proof.
  induction s as [|c s IH]; simpl; [reflexivity|].
  rewrite IH. reflexivity.
Qed.

(** X16.  A template without braces is sent as it is, whatever the
    payload: formatting it gives back the template. *)
Theorem format_plain_text (template : string) kwargs :
  forallb (fun c => negb (is_brace c)) (list_ascii_of_string template) = true ->
  format template kwargs = Ok template.
Proof.
  intros Hplain. unfold format. rewrite (scan_plain template Hplain).
  apply render_plain.
Qed.

End Notifications.

(** * Properties of start-up and configuration *)

Section StartUp.
Context `{!Random} `{!SetupRuntime} `{!FileSystem} `{!Notifier}.

(** ** [random_string] *)

Lemma length_append (a b : string) :
  String.length (a +:+ b) = (String.length a + String.length b)%nat.
Proof.
  induction a as [|c a IH]; [reflexivity|].
  change (S (String.length (a +:+ b)) = S (String.length a + String.length b)).
  rewrite IH. reflexivity.
Qed.

Lemma join_length (parts : list string) :
  Forall (fun c => String.length c = 1%nat) parts ->
  String.length (join parts) = length parts.
Proof.
  induction 1 as [|c cs Hc _ IH]; [reflexivity|].
  change (join (c :: cs)) with (c +:+ join cs).
  rewrite length_append, Hc, IH. reflexivity.
Qed.

Lemma choice_from_chars (chars : list string) s :
  chars <> [] ->
  exists c s', choice chars s = (Ok c, s') /\ c ∈ chars.
Proof.
  intros Hne. unfold choice.
  destruct chars as [|c0 rest]; [congruence|].
  pose proof (randbelow_lt (length (c0 :: rest)) s) as Hlt.
  destruct (randbelow (length (c0 :: rest)) s) as [i s'].
  exists (nth i (c0 :: rest) ""), s'. split; [reflexivity|].
  apply list_elem_of_In, nth_In. apply Hlt. simpl. lia.
Qed.

Lemma choices_from_chars (chars : list string) n s :
  chars <> [] ->
  exists cs s',
    choices chars n s = (Ok cs, s') /\ length cs = n /\
    Forall (fun c => c ∈ chars) cs.
Proof.
  intros Hne. revert s. induction n as [|n IH]; intros s; simpl.
  - exists [], s. auto.
  - destruct (choice_from_chars chars s Hne) as (c & s1 & -> & Hc).
    destruct (IH s1) as (cs & s2 & -> & Hlen & Hall).
    exists (c :: cs), s2. simpl. auto.
Qed.

(** X17.  With a non-empty [chars], [random_string] never fails: it
    returns the concatenation of exactly [length] elements of [chars]
    (none for a negative length), and nothing that is not in [chars]; when
    [chars] is a string, that is a sequence of single characters, the
    result has exactly [length] characters. *)
Theorem random_string_from_chars (len : Z) (chars : list string) s :
  chars <> [] ->
  exists cs s',
    random_string len chars s = (Ok (join cs), s') /\
    length cs = Z.to_nat len /\
    Forall (fun c => c ∈ chars) cs /\
    (Forall (fun c => String.length c = 1%nat) chars ->
     String.length (join cs) = Z.to_nat len).
Proof.
  intros Hne. unfold random_string.
  destruct (choices_from_chars chars (Z.to_nat len) s Hne)
    as (cs & s' & -> & Hlen & Hall).
  exists cs, s'. repeat split; auto.
  intros Hone. rewrite join_length; [assumption|].
  rewrite Forall_forall in *. auto.
Qed.

(** X18.  With an empty [chars], [random_string] raises [IndexError] as
    soon as one character is asked for, before anything is drawn; for a
    length of zero or less it returns the empty string, whatever [chars]
    is, and draws nothing. *)
Theorem random_string_edges (len : Z) (chars : list string) s :
  (0 < len ->
   random_string len [] s =
     (Raise (IndexError "Cannot choose from an empty sequence"), s)) /\
  (len <= 0 -> random_string len chars s = (Ok "", s)).
Proof.
  unfold random_string. split; intros Hlen.
  - destruct (Z.to_nat len) as [|n] eqn:Hn; [lia|]. reflexivity.
  - replace (Z.to_nat len) with O by lia. reflexivity.
Qed.

(** ** The command line *)

Lemma ascii_letters_digits_single :
  Forall (fun c => String.length c = 1%nat) ascii_letters_digits.
Proof.
  unfold ascii_letters_digits. apply Forall_map, Forall_true.
  intros c. reflexivity.
Qed.

Lemma given_nonempty (key : string) :
  (0 < String.length key)%nat -> Cli.given (Some key) = true.
Proof. destruct key; simpl; [lia | reflexivity]. Qed.

(** X19.  [run] never fails, and the application it starts always has a
    secret key that is set and not empty; the host and the port are those
    given, and debugging is on exactly when the flag is given or the
    configuration had it on. *)
Theorem run_secret_key_is_set host port debug secret cfg s :
  exists served s',
    Cli.run host port debug secret cfg s = (Ok served, s') /\
    Cli.given (Cli.SECRET_KEY (Cli.config served)) = true /\
    Cli.host served = host /\ Cli.port served = port /\
    Cli.DEBUG (Cli.config served) = debug || Cli.DEBUG cfg.
Proof.
  unfold Cli.run.
  destruct (Cli.given secret) eqn:Hsecret.
  - eexists _, s. split; [reflexivity|]. simpl.
    destruct debug; auto.
  - assert (Hdrawn : exists key s',
              random_string 20 ascii_letters_digits s = (Ok key, s') /\
              Cli.given (Some key) = true).
    { destruct (random_string_from_chars 20 ascii_letters_digits s)
        as (cs & s' & Hrun & _ & _ & Hlen); [discriminate|].
      exists (join cs), s'. split; [exact Hrun|]. apply given_nonempty.
      rewrite (Hlen ascii_letters_digits_single). simpl. lia. }
    destruct Hdrawn as (key & s' & Hrun & Hkey).
    destruct debug; simpl;
      (destruct (Cli.given (Cli.SECRET_KEY cfg)) eqn:Hcfg; simpl;
       [eexists _, s; split; [reflexivity|]; simpl; auto
       |rewrite Hrun; eexists _, s'; split; [reflexivity|]; simpl; auto]).
Qed.

(** X20.  Where the secret key comes from: a non-empty [secret] given to
    [run] wins over the configured key; without one, a configured key
    that is not empty is kept; only when both are missing or empty is a
    key drawn, of twenty letters and digits.  The random generator is
    used in the last case only. *)
Theorem run_secret_key_source host port debug secret cfg s :
  (Cli.given secret = true ->
   exists served,
     Cli.run host port debug secret cfg s = (Ok served, s) /\
     Cli.SECRET_KEY (Cli.config served) = secret) /\
  (Cli.given secret = false -> Cli.given (Cli.SECRET_KEY cfg) = true ->
   exists served,
     Cli.run host port debug secret cfg s = (Ok served, s) /\
     Cli.SECRET_KEY (Cli.config served) = Cli.SECRET_KEY cfg) /\
  (Cli.given secret = false -> Cli.given (Cli.SECRET_KEY cfg) = false ->
   exists served cs s',
     Cli.run host port debug secret cfg s = (Ok served, s') /\
     Cli.SECRET_KEY (Cli.config served) = Some (join cs) /\
     length cs = 20%nat /\
     Forall (fun c => c ∈ ascii_letters_digits) cs).
Proof.
  unfold Cli.run. split; [|split].
  - intros ->. eexists. split; reflexivity.
  - intros -> Hcfg. destruct debug; simpl; rewrite Hcfg; simpl;
      eexists; split; reflexivity.
  - intros -> Hcfg.
    destruct (random_string_from_chars 20 ascii_letters_digits s)
      as (cs & s' & Hrun & Hlen & Hall & _); [discriminate|].
    destruct debug; simpl; rewrite Hcfg, Hrun; simpl;
      eexists _, cs, s'; (split; [reflexivity|]); simpl; auto.
Qed.


(** ** [app_setup] *)

Lemma append_networks_all cidrs parsed networks :
  Forall2 (fun cidr network => IPNetwork_new cidr = Ok network) cidrs parsed ->
  append_networks cidrs networks = (Ok tt, networks ++ parsed).
Proof.
  intros Hall. revert networks.
  induction Hall as [|cidr network cidrs parsed Hnew _ IH]; intros networks;
    simpl.
  - rewrite app_nil_r. reflexivity.
  - rewrite Hnew, IH, <- app_assoc. reflexivity.
Qed.

Lemma append_networks_until cidrs parsed bad rest e networks :
  Forall2 (fun cidr network => IPNetwork_new cidr = Ok network) cidrs parsed ->
  IPNetwork_new bad = Raise e ->
  append_networks (cidrs ++ bad :: rest) networks =
    (Raise e, networks ++ parsed).
Proof.
  intros Hall Hbad. revert networks.
  induction Hall as [|cidr network cidrs parsed Hnew _ IH]; intros networks;
    simpl.
  - rewrite Hbad, app_nil_r. reflexivity.
  - rewrite Hnew, IH, <- app_assoc. reflexivity.
Qed.

(** Once the three attributes are there, [app_setup] does nothing. *)
Lemma app_setup_nothing_to_do key meta worker client networks :
  app_setup key meta
    {| attr_worker := Some worker; attr_slack := Some client;
       attr_github_networks := Some networks |} =
  (Ok tt,
   {| attr_worker := Some worker; attr_slack := Some client;
      attr_github_networks := Some networks |}, []).
Proof. reflexivity. Qed.

(** X21.  On a fresh application, when the metadata lists CIDR blocks that
    all parse, [app_setup] starts one daemon worker with an empty queue,
    makes the Slack client with the configured key, fetches the metadata
    once, and stores the networks of the blocks, as many and in the same
    order; the number it logs is the number of blocks. *)
Theorem app_setup_loads_networks key m cidrs networks :
  getitem m "hooks" = Ok (JList cidrs) ->
  Forall2 (fun cidr network => IPNetwork_new cidr = Ok network) cidrs networks ->
  app_setup key (Ok m) no_attrs =
    (Ok tt,
     {| attr_worker :=
          Some {| daemon := true; worker_queue := []; started := true |};
        attr_slack := Some key;
        attr_github_networks := Some networks |},
     [SeStart; SeFetch;
      SeInfo ("Loaded GitHub networks: " +:+ pretty (length cidrs))]) /\
  length networks = length cidrs.
Proof.
  intros Hhooks Hall.
  assert (Hlen : length networks = length cidrs)
    by (symmetry; eapply Forall2_length; eassumption).
  split; [|assumption].
  unfold app_setup, no_attrs. simpl. rewrite Hhooks. simpl.
  rewrite (append_networks_all cidrs networks [] Hall). simpl.
  rewrite Hlen. reflexivity.
Qed.

(** X22.  [app_setup] is run-once: after a call that returned normally,
    any later call, whatever the key and the metadata then are, returns
    normally, changes no attribute, starts no worker and fetches
    nothing. *)
Theorem app_setup_runs_once key meta a a' events :
  app_setup key meta a = (Ok tt, a', events) ->
  forall key' meta', app_setup key' meta' a' = (Ok tt, a', []).
Proof.
  intros Hsetup key' meta'. unfold app_setup in Hsetup.
  destruct (attr_worker a) as [t|]; destruct (attr_slack a) as [client|];
    destruct (attr_github_networks a) as [networks|];
    try (injection Hsetup as <- _; apply app_setup_nothing_to_do);
    (destruct meta as [m|]; [|discriminate]);
    (destruct (hooks ← getitem m "hooks"; iterate hooks) as [cidrs|];
     [|discriminate]);
    (destruct (append_networks cidrs []) as [[[]|] networks];
     [|discriminate]);
    injection Hsetup as <- _; apply app_setup_nothing_to_do.
Qed.

(** X23.  What is already set is kept: a worker that exists is never
    replaced nor started again, so its queue is not lost; a Slack client
    that exists is kept; and networks that are loaded are kept without a
    new fetch, whether or not the call returns normally. *)
Theorem app_setup_keeps_what_is_set key meta a :
  (forall t, attr_worker a = Some t ->
     attr_worker (app_setup key meta a).1.2 = Some t /\
     SeStart ∉ (app_setup key meta a).2) /\
  (forall client, attr_slack a = Some client ->
     attr_slack (app_setup key meta a).1.2 = Some client) /\
  (forall networks, attr_github_networks a = Some networks ->
     attr_github_networks (app_setup key meta a).1.2 = Some networks /\
     (app_setup key meta a).1.1 = Ok tt /\
     SeFetch ∉ (app_setup key meta a).2).
Proof.
  unfold app_setup.
  split; [|split].
  - intros t ->. destruct (attr_slack a), (attr_github_networks a);
      try (destruct meta as [m|]);
      try (destruct (hooks ← getitem m "hooks"; iterate hooks) as [cidrs|]);
      try (destruct (append_networks cidrs []) as [[[]|] networks]);
      simpl; (split; [reflexivity|]);
      rewrite ?elem_of_nil, ?elem_of_cons, ?elem_of_nil;
      intuition discriminate.
  - intros client ->. destruct (attr_worker a), (attr_github_networks a);
      try (destruct meta as [m|]);
      try (destruct (hooks ← getitem m "hooks"; iterate hooks) as [cidrs|]);
      try (destruct (append_networks cidrs []) as [[[]|] networks]);
      reflexivity.
  - intros networks ->. destruct (attr_worker a), (attr_slack a); simpl;
      (split; [reflexivity|]); (split; [reflexivity|]);
      rewrite ?elem_of_nil, ?elem_of_cons, ?elem_of_nil;
      intuition discriminate.
Qed.


(** X24.  The list of networks is set to empty before the metadata is
    read: when the metadata has no usable [hooks] entry, [app_setup]
    raises with the allowlist left empty; later calls then find it set and
    load nothing, and with that allowlist every request is refused with
    403 [you != GitHub]. *)
Theorem app_setup_without_hooks key m a e :
  attr_github_networks a = None ->
  (hooks ← getitem m "hooks"; iterate hooks) = Raise e ->
  (app_setup key (Ok m) a).1.1 = Raise e /\
  attr_github_networks (app_setup key (Ok m) a).1.2 = Some [] /\
  (forall key' meta',
     app_setup key' meta' (app_setup key (Ok m) a).1.2 =
       (Ok tt, (app_setup key (Ok m) a).1.2, [])) /\
  (forall app request (w : World),
     github_networks app = [] ->
     hook app request w =
       (Ok (respond [("status", JStr "you != GitHub")] 403), w)).
Proof.
  intros Hnone Hhooks. unfold app_setup. rewrite Hnone, Hhooks.
  destruct (attr_worker a), (attr_slack a); simpl;
    (split; [reflexivity|]); (split; [reflexivity|]);
    (split; [intros; reflexivity|]);
    intros app request world Hnets; unfold hook; rewrite Hnets; reflexivity.
Qed.

(** X25.  Each network is stored as soon as it is built: when a block of
    the metadata does not parse, [app_setup] raises with the allowlist
    holding the networks of the blocks before it and none after; later
    calls keep that truncated list and load nothing. *)
Theorem app_setup_bad_block key m a cidrs networks bad rest e :
  attr_github_networks a = None ->
  getitem m "hooks" = Ok (JList (cidrs ++ bad :: rest)) ->
  Forall2 (fun cidr network => IPNetwork_new cidr = Ok network) cidrs networks ->
  IPNetwork_new bad = Raise e ->
  (app_setup key (Ok m) a).1.1 = Raise e /\
  attr_github_networks (app_setup key (Ok m) a).1.2 = Some networks /\
  (forall key' meta',
     app_setup key' meta' (app_setup key (Ok m) a).1.2 =
       (Ok tt, (app_setup key (Ok m) a).1.2, [])).
Proof.
  intros Hnone Hhooks Hall Hbad. unfold app_setup. rewrite Hnone, Hhooks.
  simpl. rewrite (append_networks_until cidrs networks bad rest e [] Hall Hbad).
  destruct (attr_worker a), (attr_slack a); simpl;
    (split; [reflexivity|]); (split; [reflexivity|]);
    intros; reflexivity.
Qed.

(** X26.  When the fetch of the metadata itself fails, the exception
    leaves [app_setup] with the worker and the Slack client in place and
    the allowlist still unset; a later call starts no second worker and
    fetches again. *)
Theorem app_setup_fetch_failure key a e :
  attr_github_networks a = None ->
  (app_setup key (Raise e) a).1.1 = Raise e /\
  attr_github_networks (app_setup key (Raise e) a).1.2 = None /\
  is_Some (attr_worker (app_setup key (Raise e) a).1.2) /\
  is_Some (attr_slack (app_setup key (Raise e) a).1.2) /\
  (forall key' meta',
     (app_setup key' meta' (app_setup key (Raise e) a).1.2).2 = [SeFetch]
     \/ exists n : nat,
          (app_setup key' meta' (app_setup key (Raise e) a).1.2).2 =
            [SeFetch; SeInfo ("Loaded GitHub networks: " +:+ pretty n)]).
Proof.
  intros Hnone. unfold app_setup. rewrite Hnone.
  destruct (attr_worker a), (attr_slack a); simpl;
    (split; [reflexivity|]); (split; [reflexivity|]);
    (split; [eauto|]); (split; [eauto|]);
    intros key' meta'; (destruct meta' as [m|]; [|left; reflexivity]);
    (destruct (hooks ← getitem m "hooks"; iterate hooks) as [cidrs|];
     [|left; reflexivity]);
    (destruct (append_networks cidrs []) as [[[]|] networks];
     [right; eexists; reflexivity | left; reflexivity]).
Qed.

(** ** [load_config] *)

Lemma update_items_lookup (config : gmap string JSON) items key :
  foldr (fun kv m => <[kv.1 := kv.2]> m) config items !! key =
    match assoc key items with
    | Some v => Some v
    | None => config !! key
    end.
Proof.
  induction items as [|[k v] items IH]; simpl; [reflexivity|].
  destruct (String.eqb k key) eqn:Hk.
  - apply String.eqb_eq in Hk as ->. apply lookup_insert_eq.
  - apply String.eqb_neq in Hk. rewrite lookup_insert_ne by exact Hk.
    exact IH.
Qed.

(** X27.  When the repository has a configuration file holding a mapping,
    [load_config] returns the defaults overlaid with the file: a key of
    the file has the value of the file, and every other key has its
    default. *)
Theorem load_config_overlays_defaults cfg repo_dir defaults filename items :
  CONFIG_DEFAULT cfg = Some defaults ->
  CONFIG_FILENAME cfg = Some filename ->
  path_exists (path_join repo_dir filename) = true ->
  yaml_load_file (path_join repo_dir filename) = Ok (JObj items) ->
  exists config,
    load_config cfg repo_dir = Ok config /\
    forall key,
      config !! key =
        match assoc key items with
        | Some v => Some v
        | None => defaults !! key
        end.
Proof.
  intros Hdefault Hname Hexists Hload. unfold load_config.
  rewrite Hdefault, Hname, Hexists, Hload. simpl.
  eexists. split; [reflexivity|]. apply update_items_lookup.
Qed.

(** X28.  The edges of [load_config]: without a file in the repository it
    returns the defaults unchanged; a file holding an empty document, which
    loads as [None], makes it raise [TypeError]; and as long as
    [CONFIG_DEFAULT] or [CONFIG_FILENAME] is not configured it raises
    [KeyError] for every directory, whatever the file system holds. *)
Theorem load_config_edges cfg repo_dir :
  (forall defaults filename,
     CONFIG_DEFAULT cfg = Some defaults ->
     CONFIG_FILENAME cfg = Some filename ->
     (path_exists (path_join repo_dir filename) = false ->
      load_config cfg repo_dir = Ok defaults) /\
     (path_exists (path_join repo_dir filename) = true ->
      yaml_load_file (path_join repo_dir filename) = Ok JNull ->
      load_config cfg repo_dir = Raise (TypeError "object is not iterable"))) /\
  (CONFIG_DEFAULT cfg = None ->
   load_config cfg repo_dir = Raise (KeyError (JStr "CONFIG_DEFAULT"))) /\
  (is_Some (CONFIG_DEFAULT cfg) -> CONFIG_FILENAME cfg = None ->
   load_config cfg repo_dir = Raise (KeyError (JStr "CONFIG_FILENAME"))).
Proof.
  unfold load_config. split; [|split].
  - intros defaults filename -> ->. split.
    + intros ->. reflexivity.
    + intros -> ->. reflexivity.
  - intros ->. reflexivity.
  - intros [defaults ->] ->. reflexivity.
Qed.

End StartUp.

(** * The theorems at concrete inputs *)

Section Concrete.
#[local] Existing Instance plain_runtime.
#[local] Existing Instance flaky_slack.
Import Examples.

Lemma example_networks_valid : Forall valid_network (github_networks app).
Proof.
  repeat constructor; unfold valid_network, max_int; simpl; lia.
Defined.

Lemma origin_check_range_witness :
  Forall valid_network (github_networks app) /\
  from_github inside (github_networks app) = true /\
  hook app (request outside (Some "watch") (payload "acme/widgets"))
       start =
    (Ok (respond [("status", JStr "you != GitHub")] 403), start).
Proof.
  split; [exact example_networks_valid|].
  destruct (origin_check_range app
              (request outside (Some "watch") (payload "acme/widgets"))
              start example_networks_valid) as (_ & _ & Hno).
  split; [reflexivity | apply Hno; reflexivity].
Defined.

(** C7, as stated, fails: without an event-type header, a request from an
    address outside the allowlist is answered [you != GitHub], not
    [not a hook]. *)
Lemma missing_event_counterexample :
  X_GitHub_Event (request outside None JNull) = None /\
  (hook app (request outside None JNull) start).1 =
    Ok (respond [("status", JStr "you != GitHub")] 403) /\
  (hook app (request outside None JNull) start).1 <>
    Ok (respond [("status", JStr "not a hook")] 403).
Proof.
  split; [reflexivity|]. split; [reflexivity|]. discriminate.
Qed.

Lemma missing_event_not_a_hook_witness :
  from_github inside (github_networks app) = true /\
  X_GitHub_Event (request inside None JNull) = None /\
  hook app (request inside None JNull) start =
    (Ok (respond [("status", JStr "not a hook")] 403),
     world [] 0 [EvInfo "Received a non-hook request"]).
Proof.
  split; [reflexivity|]. split; [reflexivity|].
  apply (missing_event_not_a_hook app (request inside None JNull)
           start); reflexivity.
Defined.

(** C5, as stated, fails: an event-type header that is present but empty
    is none of [ping], [watch] and [fork], and the request is answered
    403 [not a hook], not 501. *)
Lemma unhandled_event_counterexample :
  from_github inside (github_networks app) = true /\
  X_GitHub_Event (request inside (Some "") JNull) = Some "" /\
  "" <> "ping" /\ "" <> "watch" /\ "" <> "fork" /\
  (hook app (request inside (Some "") JNull) start).1 =
    Ok (respond [("status", JStr "not a hook")] 403) /\
  (hook app (request inside (Some "") JNull) start).1 <>
    Ok (respond [("status", JStr "unhandled event"); ("event", JStr "")] 501).
Proof.
  repeat (split; [first [reflexivity | discriminate]|]). discriminate.
Qed.

Lemma unhandled_event_501_witness :
  from_github inside (github_networks app) = true /\
  hook app (request inside (Some "push") JNull) start =
    (Ok (respond [("status", JStr "unhandled event");
                  ("event", JStr "push")] 501), start).
Proof.
  split; [reflexivity|].
  apply (unhandled_event_501 app (request inside (Some "push") JNull)
           start "push");
    first [reflexivity | discriminate].
Defined.

Lemma unregistered_repo_403_witness :
  REPOS app !! "acme/nothing" = None /\
  hook app (request inside (Some "fork") (payload "acme/nothing"))
       start =
    (Ok (respond [("status", JStr "repo not allowed");
                  ("repo", JStr "acme/nothing")] 403), start).
Proof.
  split; [reflexivity|].
  apply (unregistered_repo_403 app
           (request inside (Some "fork") (payload "acme/nothing"))
           start "fork" (payload "acme/nothing")
           (JStr "acme/nothing"));
    first [reflexivity | right; reflexivity].
Defined.

Lemma watch_enqueues_star_job_witness :
  REPOS_contains app (JStr "acme/widgets") = Ok true /\
  hook app (request inside (Some "watch") (payload "acme/widgets"))
       start =
    (Ok (respond [("status", JStr "handled")] 202),
     world [("watch", payload "acme/widgets")] 0
           [EvPut ("watch", payload "acme/widgets")]).
Proof.
  split; [reflexivity|].
  apply (watch_enqueues_star_job app
           (request inside (Some "watch") (payload "acme/widgets"))
           start (payload "acme/widgets") (JStr "acme/widgets"));
    reflexivity.
Defined.

(** C8, as stated, fails: the fork message sent for a repository without
    a template of its own carries [:goldfork:], not the fork sign of the
    specification. *)
Lemma fork_message_counterexample :
  (exists repo, REPOS app !! "acme/widgets" = Some repo /\
                repo !! "FORK_FORMAT" = None) /\
  handle app "fork" (payload "acme/widgets") start =
    (Ok tt,
     world [] 1
       [EvPost "#releases"
          "<https://github.com/alice|alice> forked <https://github.com/acme/widgets|acme/widgets> :goldfork: 42"]) /\
  "<https://github.com/alice|alice> forked <https://github.com/acme/widgets|acme/widgets> :goldfork: 42"
    <> spec_fork_message "https://github.com/alice" "alice"
         "https://github.com/acme/widgets" "acme/widgets" "42".
Proof.
  split; [|split].
  - eexists. split; reflexivity.
  - reflexivity.
  - apply String.eqb_neq. reflexivity.
Qed.

Lemma fork_job_default_message_witness :
  FORK_FORMAT app = DEFAULT_FORK_FORMAT /\
  handle app "fork" (payload "acme/widgets") start =
    chat_post_message "#releases"
      (fork_message "https://github.com/alice" "alice"
         "https://github.com/acme/widgets" "acme/widgets" "42") start.
Proof.
  split; [reflexivity|].
  apply (fork_job_default_message app (payload "acme/widgets")
           {[ "channel" := "#releases" ]} "#releases"
           (JStr "alice") (JStr "https://github.com/alice")
           (JStr "acme/widgets") (JStr "https://github.com/acme/widgets")
           (JInt 42) start); reflexivity.
Defined.

Lemma one_taken_reachable : reachable app one_taken.
Proof.
  apply (reach_worker app two_queued one_taken); [|reflexivity].
  apply reach_request, reach_request, reach_initial.
Defined.

Lemma queue_is_fifo_witness :
  reachable app one_taken /\
  gets (trace one_taken) = [("fork", payload "acme/gadgets")] /\
  queue one_taken = [("watch", payload "acme/widgets")] /\
  gets (trace one_taken) ++ queue one_taken = puts (trace one_taken).
Proof.
  split; [exact one_taken_reachable|].
  split; [reflexivity|]. split; [reflexivity|].
  exact (proj1 (queue_is_fifo app one_taken one_taken_reachable)).
Defined.

Lemma queued_jobs_are_registered_witness :
  reachable app one_taken /\
  Forall (fun job => exists repo, registry_lookup app job.2 = Ok repo)
         (queue one_taken).
Proof.
  split; [exact one_taken_reachable|].
  exact (proj1 (proj2 (queued_jobs_are_registered app one_taken
                         one_taken_reachable))).
Defined.

Lemma other_job_is_ignored_witness :
  "ping" <> "watch" /\ "ping" <> "fork" /\
  handle app "ping" JNull start = (Ok tt, start).
Proof.
  split; [discriminate|]. split; [discriminate|].
  apply (other_job_is_ignored app "ping" JNull start); discriminate.
Defined.

(** The worker on a queue of four jobs of which the first fails in the
    notifier and the third in the lookup of the registry: all four are
    taken, the two calls to Slack are made, the last one after both
    failures, the failure of the third job is in the log, and the worker
    is left waiting. *)
Lemma worker_fault_isolation_witness :
  let jobs := [("fork", payload "acme/gadgets"); ("ping", JNull);
               ("watch", payload "acme/nothing");
               ("fork", payload "acme/widgets")] in
  exists w' logged,
    run app 5 (world jobs 0 []) = (Waiting, w') /\
    queue w' = [] /\
    gets (trace w') = jobs /\
    posts (trace w') =
      [("#down",
        "<https://github.com/alice|alice> forked <https://github.com/acme/gadgets|acme/gadgets> :goldfork: 42");
       ("#releases",
        "<https://github.com/alice|alice> forked <https://github.com/acme/widgets|acme/widgets> :goldfork: 42")] /\
    errors (trace w') = logged /\
    KeyError (JStr "acme/nothing") ∈ logged.
Proof.
  intros jobs.
  destruct (proj2 (proj2 (worker_fault_isolation app)) 5%nat
              (world jobs 0 []))
    as (w' & logged & Hrun & Hq & Hg & _ & Hposts & He & _ & Hin);
    [simpl; lia|].
  exists w', logged. split; [exact Hrun|]. split; [exact Hq|].
  split; [exact Hg|]. split; [exact Hposts|]. split; [exact He|].
  apply (Hin ("watch", payload "acme/nothing")); [|reflexivity].
  repeat constructor.
Defined.

End Concrete.

(** * The further properties at concrete inputs *)

Section ConcreteMore.
#[local] Existing Instance plain_runtime.
#[local] Existing Instance flaky_slack.
#[local] Existing Instance counting_random.
#[local] Existing Instance two_blocks.
#[local] Existing Instance one_file.
Import Examples MoreExamples.

Lemma ping_pong_witness :
  hook app (request inside (Some "ping") JNull) start =
    (Ok (respond [("status", JStr "pong")] 200), start).
Proof.
  apply (ping_pong app (request inside (Some "ping") JNull) start);
    reflexivity.
Defined.

Lemma fork_enqueues_fork_job_witness :
  hook app (request inside (Some "fork") (payload "acme/widgets")) start =
    (Ok (respond [("status", JStr "handled")] 202),
     world [("fork", payload "acme/widgets")] 0
           [EvPut ("fork", payload "acme/widgets")]).
Proof.
  apply (fork_enqueues_fork_job app
           (request inside (Some "fork") (payload "acme/widgets"))
           start (payload "acme/widgets") (JStr "acme/widgets"));
    reflexivity.
Defined.

Lemma hook_raises_on_payload_only_witness :
  (hook app (request inside (Some "fork") (JList [])) start).1 =
    Raise (TypeError "list indices must be integers or slices") /\
  X_GitHub_Event (request inside (Some "fork") (JList [])) = Some "fork".
Proof.
  split; [reflexivity|].
  destruct (hook_raises_on_payload_only app
              (request inside (Some "fork") (JList [])) start
              (TypeError "list indices must be integers or slices")
              eq_refl) as (_ & [H | H] & _); [discriminate H | exact H].
Defined.

Lemma network_prefix_bounds_witness :
  network_contains
    {| net_version := IPv4; net_value := 3221226001; prefixlen := 32 |}
    inside = true.
Proof.
  apply (proj1 (network_prefix_bounds
                  {| net_version := IPv4; net_value := 3221226001;
                     prefixlen := 32 |} inside
                  ltac:(unfold max_int; simpl; lia)
                  ltac:(unfold max_int; simpl; lia)) eq_refl).
  split; reflexivity.
Defined.

Lemma handle_unregistered_repository_witness :
  handle app "watch" (payload "acme/nothing") start =
    (Raise (KeyError (JStr "acme/nothing")), start).
Proof.
  apply (handle_unregistered_repository app "watch" (payload "acme/nothing")
           "acme/nothing" start); first [reflexivity | left; reflexivity].
Defined.

Lemma handle_missing_channel_witness :
  handle custom_app "fork" (payload "acme/silent") start =
    (Raise (KeyError (JStr "channel")), start).
Proof.
  apply (handle_missing_channel custom_app "fork" (payload "acme/silent")
           ∅ start); first [reflexivity | right; reflexivity].
Defined.

Lemma repository_template_overrides_witness :
  handle custom_app "watch" (payload "acme/widgets") start =
    (Ok tt, world [] 1 [EvPost "#releases" "alice likes it"]) /\
  handle custom_app "fork" (payload "acme/widgets") start =
    (Ok tt, world [] 1 [EvPost "#releases" "forked again"]).
Proof.
  destruct (repository_template_overrides custom_app (payload "acme/widgets")
              {[ "channel" := "#releases";
                 "STAR_FORMAT" := "{user[name]} likes it";
                 "FORK_FORMAT" := "forked again" ]}
              "#releases" (JStr "alice") (JStr "https://github.com/alice")
              (JStr "acme/widgets") (JStr "https://github.com/acme/widgets")
              "forked again" start
              eq_refl eq_refl eq_refl eq_refl eq_refl eq_refl) as [_ Hfork].
  split; [reflexivity|].
  rewrite (Hfork (JInt 42) eq_refl eq_refl). reflexivity.
Defined.

Lemma watch_job_default_message_witness :
  handle app "watch" (payload "acme/widgets") start =
    chat_post_message "#releases"
      "<https://github.com/alice|alice> starred <https://github.com/acme/widgets|acme/widgets> ★ 7"
      start.
Proof.
  apply (watch_job_default_message app (payload "acme/widgets")
           {[ "channel" := "#releases" ]} "#releases"
           (JStr "alice") (JStr "https://github.com/alice")
           (JStr "acme/widgets") (JStr "https://github.com/acme/widgets")
           (JInt 7) start); reflexivity.
Defined.

Lemma notifier_failure_is_logged_witness :
  run_iter app (world [("fork", payload "acme/gadgets")] 0 []) =
    Some (Ok tt,
          world [] 1
            [EvGet ("fork", payload "acme/gadgets");
             EvPost "#down"
               "<https://github.com/alice|alice> forked <https://github.com/acme/gadgets|acme/gadgets> :goldfork: 42";
             EvError (SlackError "channel_not_found")]).
Proof.
  apply (notifier_failure_is_logged app
           (world [("fork", payload "acme/gadgets")] 0 [])
           "fork" (payload "acme/gadgets") [] "#down"
           "<https://github.com/alice|alice> forked <https://github.com/acme/gadgets|acme/gadgets> :goldfork: 42"
           (SlackError "channel_not_found") 1%nat); reflexivity.
Defined.

Lemma deliveries_at_most_once_witness :
  reachable app one_taken /\
  gets (trace one_taken) ++ queue one_taken = puts (trace one_taken) /\
  posts (trace one_taken) =
    flat_map (job_posts app) (gets (trace one_taken)) /\
  posts (trace one_taken) =
    [("#down",
      "<https://github.com/alice|alice> forked <https://github.com/acme/gadgets|acme/gadgets> :goldfork: 42")].
Proof.
  split; [exact one_taken_reachable|].
  destruct (deliveries_at_most_once app one_taken one_taken_reachable)
    as (Hq & Hp & _ & _).
  split; [exact Hq|]. split; [exact Hp | reflexivity].
Defined.

Lemma accepted_event_is_notified_witness :
  run_iter app
    (hook app (request inside (Some "fork") (payload "acme/widgets"))
       start).2 =
    Some (Ok tt,
          world [] 1
            [EvPut ("fork", payload "acme/widgets");
             EvGet ("fork", payload "acme/widgets");
             EvPost "#releases"
               "<https://github.com/alice|alice> forked <https://github.com/acme/widgets|acme/widgets> :goldfork: 42"]).
Proof.
  exact (proj2 (accepted_event_is_notified app
                  (request inside (Some "fork") (payload "acme/widgets"))
                  start "fork" (payload "acme/widgets")
                  (JStr "acme/widgets") "#releases"
                  "<https://github.com/alice|alice> forked <https://github.com/acme/widgets|acme/widgets> :goldfork: 42"
                  eq_refl eq_refl eq_refl (or_intror eq_refl)
                  eq_refl eq_refl eq_refl eq_refl)).
Defined.

Lemma format_plain_text_witness :
  format "new star!" [("stars", JInt 7)] = Ok "new star!".
Proof.
  apply (format_plain_text "new star!" [("stars", JInt 7)]). reflexivity.
Defined.

Lemma random_string_from_chars_witness :
  ["a"; "b"; "c"] <> [] /\
  exists cs s',
    random_string 4 ["a"; "b"; "c"] seed = (Ok (join cs), s') /\
    length cs = 4%nat.
Proof.
  split; [discriminate|].
  destruct (random_string_from_chars 4 ["a"; "b"; "c"] seed
              ltac:(discriminate)) as (cs & s' & Hrun & Hlen & _).
  exists cs, s'. split; [exact Hrun | exact Hlen].
Defined.

Lemma app_setup_loads_networks_witness :
  attr_github_networks
    (app_setup (Some "xoxb-key")
       (Ok (meta ["192.0.2.0/24"; "198.51.100.0/24"])) no_attrs).1.2 =
    Some [{| net_version := IPv4; net_value := 3221225984; prefixlen := 24 |};
          {| net_version := IPv4; net_value := 3325256704; prefixlen := 24 |}].
Proof.
  rewrite (proj1 (app_setup_loads_networks (Some "xoxb-key")
                    (meta ["192.0.2.0/24"; "198.51.100.0/24"])
                    [JStr "192.0.2.0/24"; JStr "198.51.100.0/24"]
                    [{| net_version := IPv4; net_value := 3221225984;
                        prefixlen := 24 |};
                     {| net_version := IPv4; net_value := 3325256704;
                        prefixlen := 24 |}]
                    eq_refl
                    ltac:(repeat constructor))).
  reflexivity.
Defined.

Lemma app_setup_runs_once_witness :
  let a := (app_setup (Some "xoxb-key") (Ok (meta ["192.0.2.0/24"]))
              no_attrs).1.2 in
  app_setup None (Raise BadRequest) a = (Ok tt, a, []).
Proof.
  intros a.
  apply (app_setup_runs_once (Some "xoxb-key") (Ok (meta ["192.0.2.0/24"]))
           no_attrs a
           [SeStart; SeFetch; SeInfo "Loaded GitHub networks: 1"]).
  reflexivity.
Defined.

Lemma app_setup_without_hooks_witness :
  attr_github_networks
    (app_setup None (Ok (JObj [("message", JStr "rate limit exceeded")]))
       no_attrs).1.2 = Some [].
Proof.
  exact (proj1 (proj2 (app_setup_without_hooks None
                         (JObj [("message", JStr "rate limit exceeded")])
                         no_attrs (KeyError (JStr "hooks"))
                         eq_refl eq_refl))).
Defined.

Lemma app_setup_bad_block_witness :
  attr_github_networks
    (app_setup None
       (Ok (meta ["192.0.2.0/24"; "not a block"; "198.51.100.0/24"]))
       no_attrs).1.2 =
    Some [{| net_version := IPv4; net_value := 3221225984; prefixlen := 24 |}].
Proof.
  exact (proj1 (proj2 (app_setup_bad_block None
                         (meta ["192.0.2.0/24"; "not a block";
                                "198.51.100.0/24"])
                         no_attrs [JStr "192.0.2.0/24"]
                         [{| net_version := IPv4; net_value := 3221225984;
                             prefixlen := 24 |}]
                         (JStr "not a block") [JStr "198.51.100.0/24"]
                         (ValueError "invalid IPNetwork")
                         eq_refl eq_refl
                         ltac:(repeat constructor) eq_refl))).
Defined.

Lemma app_setup_fetch_failure_witness :
  attr_github_networks
    (app_setup None (Raise (SlackError "connection refused")) no_attrs).1.2 =
    None.
Proof.
  exact (proj1 (proj2 (app_setup_fetch_failure None no_attrs
                         (SlackError "connection refused") eq_refl))).
Defined.

Lemma load_config_overlays_defaults_witness :
  exists config,
    load_config loader "repos/widgets" = Ok config /\
    config !! "channel" = Some (JStr "#widgets") /\
    config !! "branch" = Some (JStr "master").
Proof.
  destruct (@load_config_overlays_defaults one_file loader "repos/widgets"
              {[ "channel" := JStr "#general"; "branch" := JStr "master" ]}
              "skyhook.yml"
              [("channel", JStr "#widgets"); ("notify", JBool true)]
              eq_refl eq_refl eq_refl eq_refl) as (config & Hload & Hkeys).
  exists config. split; [exact Hload|].
  split; rewrite Hkeys; reflexivity.
Defined.

End ConcreteMore.
